(** * Forward kinematics of the excavator arm: [draw_exc] of
      [exc_analysis/plotting.py]

    The development embeds the body of [draw_exc] (plotting.py:26-112) and
    proves the properties of the joint angles, of the link-end positions and
    of the drawn segments.

    Modelling conventions.
    - A Python/numpy scalar is a real number or NaN ([npfloat]); arithmetic is
      exact (rounding of binary64 is not modelled) and NaN is absorbing, as in
      IEEE 754.
    - [np.arccos] returns NaN outside [-1, 1] (numpy only warns);
      [math.sqrt] raises [ValueError] on a negative argument; [/] on floats
      raises [ZeroDivisionError] on a zero divisor.
    - The geometry table [exc], imported from the module [kinematics], is a
      parameter: a record of reals, one field per key that [draw_exc] reads.
    - The state is a Python sequence of floats; reading past its end raises
      [IndexError].
    - The matplotlib axis is a record holding the lines plotted so far, the
      axis limits and the view; [ax.plot] appends one line. *)

From Stdlib Require Import Reals Lra Lia List ZArith Bool Permutation Sorted.
From Stdlib Require String.
Import ListNotations.

Set Implicit Arguments.

(** ** Exceptions and the result monad *)

Inductive exn : Set :=
| IndexError
| ZeroDivisionError
| ValueError.

Inductive result (A : Type) : Type :=
| Ok (a : A)
| Raise (e : exn).

Arguments Ok {A} a.
Arguments Raise {A} e.

Definition bind {A B : Type} (m : result A) (k : A -> result B) : result B :=
  match m with
  | Ok a => k a
  | Raise e => Raise e
  end.

Definition rmap {A B : Type} (f : A -> B) (m : result A) : result B :=
  match m with
  | Ok a => Ok (f a)
  | Raise e => Raise e
  end.

Declare Scope result_scope.
Delimit Scope result_scope with result.
Notation "x <- m ;; k" := (bind m (fun x => k))
  (at level 61, m at next level, right associativity) : result_scope.
Open Scope result_scope.

(** ** Scalars: a real number or NaN *)

Inductive npfloat : Type :=
| Num (x : R)
| NaN.

Coercion Num : R >-> npfloat.

Declare Scope float_scope.
Delimit Scope float_scope with fl.
Bind Scope float_scope with npfloat.

Definition lift1 (f : R -> R) (x : npfloat) : npfloat :=
  match x with
  | Num a => Num (f a)
  | NaN => NaN
  end.

Definition lift2 (f : R -> R -> R) (x y : npfloat) : npfloat :=
  match x, y with
  | Num a, Num b => Num (f a b)
  | _, _ => NaN
  end.

Definition fadd : npfloat -> npfloat -> npfloat := lift2 Rplus.
Definition fsub : npfloat -> npfloat -> npfloat := lift2 Rminus.
Definition fmul : npfloat -> npfloat -> npfloat := lift2 Rmult.
(** [x ** n] for a literal exponent; [nan ** 0] is 1. *)
Definition fpow (x : npfloat) (n : nat) : npfloat :=
  match n with
  | O => Num 1
  | _ => lift1 (fun a => (a ^ n)%R) x
  end.
Definition np_cos : npfloat -> npfloat := lift1 cos.
Definition np_sin : npfloat -> npfloat := lift1 sin.

Infix "+" := fadd : float_scope.
Infix "-" := fsub : float_scope.
Infix "*" := fmul : float_scope.
Notation "x ** n" := (fpow x n) (at level 30, right associativity) : float_scope.

(** [np.arccos]: the angle in [0, pi] on [-1, 1] (bounds included), NaN
    elsewhere and on NaN. *)
Definition in_domainb (a : R) : bool :=
  if Rle_dec (-1) a then (if Rle_dec a 1 then true else false) else false.

Definition np_arccos (x : npfloat) : npfloat :=
  match x with
  | Num a => if in_domainb a then Num (acos a) else NaN
  | NaN => NaN
  end.

(** [math.sqrt]: raises on a negative argument, returns NaN on NaN. *)
Definition math_sqrt (x : npfloat) : result npfloat :=
  match x with
  | Num a => if Rlt_dec a 0 then Raise ValueError else Ok (Num (sqrt a))
  | NaN => Ok NaN
  end.

(** Float division of Python floats (the state is a Python sequence of
    floats, the table holds Python floats): a zero divisor raises, whatever
    the dividend.  A numpy scalar as dividend would give inf or nan
    instead. *)
Definition py_div (x y : npfloat) : result npfloat :=
  match y with
  | Num b =>
      if Req_dec_T b 0 then Raise ZeroDivisionError
      else match x with
           | Num a => Ok (Num (a / b))
           | NaN => Ok NaN
           end
  | NaN => Ok NaN
  end.

Infix "/" := py_div : float_scope.

(** [state[i]] on a Python sequence of floats. *)
Definition getitem (state : list R) (i : nat) : result npfloat :=
  match nth_error state i with
  | Some x => Ok (Num x)
  | None => Raise IndexError
  end.

(** ** The geometry table [exc] *)

Record ExcTable : Type := {
  a1 : R; a2 : R; a3 : R; a4 : R;
  r_cyl1 : R; r_cyl2 : R; r_cyl3 : R;
  r_o1a : R; r_o1b : R;
  r_o2c : R; r_o2d : R;
  r_ef : R; r_fh : R;
  r_o3f : R; r_o3g : R; r_gh : R;
  a_b12 : R; a_a1x1 : R;
  a_12c : R; a_d23 : R;
  a_dfe : R;
  a_g34 : R; a_23d : R
}.

(** ** Arrays of three coordinates, lines and the axis *)

Definition array3 : Type := (npfloat * npfloat * npfloat)%type.

(** [zip(p, q)] on two arrays of three entries: the pairs of x, of y and of z
    coordinates; [line[0]], [line[1]], [line[2]] are its components. *)
Record Line : Type := {
  xdata : npfloat * npfloat;
  ydata : npfloat * npfloat;
  zdata : npfloat * npfloat
}.

Definition zip (p q : array3) : Line :=
  let '(px, py, pz) := p in
  let '(qx, qy, qz) := q in
  {| xdata := (px, qx); ydata := (py, qy); zdata := (pz, qz) |}.

Definition line_start (l : Line) : array3 :=
  (fst (xdata l), fst (ydata l), fst (zdata l)).

Definition line_end (l : Line) : array3 :=
  (snd (xdata l), snd (ydata l), snd (zdata l)).

(** A plotted line: its data and its line width (marker ['-o'], colour ['y']
    and z-order 0 are constant).  The limits and the view are those set by
    [set_xlim3d], [set_ylim3d], [set_zlim3d] and [view_init]; the autoscaling
    of the limits by [ax.plot] is not modelled. *)
Record Axes : Type := {
  lines : list (Line * Z);
  xlim3d : option (Z * Z);
  ylim3d : option (Z * Z);
  zlim3d : option (Z * Z);
  view : option (Z * Z)
}.

Definition plot (ax : Axes) (line : Line) (lw : Z) : Axes :=
  {| lines := lines ax ++ [(line, lw)];
     xlim3d := xlim3d ax; ylim3d := ylim3d ax; zlim3d := zlim3d ax;
     view := view ax |}.

Definition set_xlim3d (ax : Axes) (lim : Z * Z) : Axes :=
  {| lines := lines ax; xlim3d := Some lim; ylim3d := ylim3d ax;
     zlim3d := zlim3d ax; view := view ax |}.

Definition set_ylim3d (ax : Axes) (lim : Z * Z) : Axes :=
  {| lines := lines ax; xlim3d := xlim3d ax; ylim3d := Some lim;
     zlim3d := zlim3d ax; view := view ax |}.

Definition set_zlim3d (ax : Axes) (lim : Z * Z) : Axes :=
  {| lines := lines ax; xlim3d := xlim3d ax; ylim3d := ylim3d ax;
     zlim3d := Some lim; view := view ax |}.

Definition view_init (ax : Axes) (azim elev : Z) : Axes :=
  {| lines := lines ax; xlim3d := xlim3d ax; ylim3d := ylim3d ax;
     zlim3d := zlim3d ax; view := Some (azim, elev) |}.

(** ** The body of [draw_exc] *)

Section DrawExc.

Variable exc : ExcTable.

Open Scope R_scope.
Open Scope float_scope.

(** plotting.py:46-47, the argument of the boom [np.arccos]. *)
Definition boom_arg (state : list R) : result npfloat :=
  s0 <- getitem state 0 ;;
  let r_c1 := s0 + r_cyl1 exc in
  (r_o1b exc ** 2 + r_o1a exc ** 2 - r_c1 ** 2) / (2 * r_o1b exc * r_o1a exc).

(** plotting.py:46-48. *)
Definition boom_angle (state : list R) : result npfloat :=
  q <- boom_arg state ;;
  let a_a1b := np_arccos q in
  Ok (a_a1b - a_b12 exc - a_a1x1 exc).

(** plotting.py:51-52, the argument of the stick [np.arccos]. *)
Definition stick_arg (state : list R) : result npfloat :=
  s1 <- getitem state 1 ;;
  let r_c2 := s1 + r_cyl2 exc in
  (r_o2c exc ** 2 + r_o2d exc ** 2 - r_c2 ** 2) / (2 * r_o2c exc * r_o2d exc).

(** plotting.py:51-53. *)
Definition stick_angle (state : list R) : result npfloat :=
  q <- stick_arg state ;;
  let a_c2d := np_arccos q in
  Ok (3 * PI - a_12c exc - a_c2d - a_d23 exc).

(** plotting.py:56-57, the argument of the first bucket [np.arccos]. *)
Definition efh_arg (state : list R) : result npfloat :=
  s2 <- getitem state 2 ;;
  let r_c3 := s2 + r_cyl3 exc in
  (r_ef exc ** 2 + r_fh exc ** 2 - r_c3 ** 2) / (2 * r_ef exc * r_fh exc).

(** plotting.py:58-59, the diagonal from the enclosed angle [a_efh]. *)
Definition diagonal (a_efh : npfloat) : result npfloat :=
  let a_hf3 := PI - a_dfe exc - a_efh in
  math_sqrt (r_o3f exc ** 2 + r_fh exc ** 2
             - 2 * r_o3f exc * r_fh exc * np_cos a_hf3).

(** plotting.py:60 and 61, the arguments of the last two [np.arccos]. *)
Definition f3h_arg (r_o3h : npfloat) : result npfloat :=
  (r_o3h ** 2 + r_o3f exc ** 2 - r_fh exc ** 2) / (2 * r_o3h * r_o3f exc).

Definition h3g_arg (r_o3h : npfloat) : result npfloat :=
  (r_o3h ** 2 + r_o3g exc ** 2 - r_gh exc ** 2) / (2 * r_o3h * r_o3g exc).

(** plotting.py:56-62. *)
Definition bucket_angle (state : list R) : result npfloat :=
  q <- efh_arg state ;;
  let a_efh := np_arccos q in
  r_o3h <- diagonal a_efh ;;
  q4 <- f3h_arg r_o3h ;;
  let a_f3h := np_arccos q4 in
  q5 <- h3g_arg r_o3h ;;
  let a_h3g := np_arccos q5 in
  Ok (3 * PI - a_f3h - a_h3g - a_g34 exc - a_23d exc).

(** plotting.py:38-62: the four joint angles, in the order of evaluation of
    the source. *)
Definition joint_angles (state : list R)
  : result (npfloat * npfloat * npfloat * npfloat) :=
  t1 <- getitem state 3 ;;
  t2 <- boom_angle state ;;
  t3 <- stick_angle state ;;
  t4 <- bucket_angle state ;;
  Ok (t1, t2, t3, t4).

(** The six points held by [gnd], [base], [o1] .. [o4]. *)
Record Points : Type := {
  gnd : array3;
  base : array3;
  o1 : array3;
  o2 : array3;
  o3 : array3;
  o4 : array3
}.

(** plotting.py:64-91: ground, base and the four link ends. *)
Definition link_points (t1 t2 t3 t4 : npfloat) (gnd_offset : R) : Points :=
  let a1 : npfloat := a1 exc in
  let a2 : npfloat := a2 exc in
  let a3 : npfloat := a3 exc in
  let a4 : npfloat := a4 exc in
  let c1 := np_cos t1 in
  let c2 := np_cos t2 in
  let c234 := np_cos (t2 + t3 + t4) in
  let c23 := np_cos (t2 + t3) in
  let s1 := np_sin t1 in
  let s2 := np_sin t2 in
  let s234 := np_sin (t2 + t3 + t4) in
  let s23 := np_sin (t2 + t3) in
  let gos : npfloat := gnd_offset in
  {| gnd := (Num 0, Num 0, Num 0);
     base := (Num 0, Num 0, gos);
     o1 := (a1 * c1, a1 * s1, gos);
     o2 := ((a2 * c2 + a1) * c1,
            (a2 * c2 + a1) * s1,
            a2 * s2 + gos);
     o3 := ((a2 * c2 + a3 * c23 + a1) * c1,
            (a2 * c2 + a3 * c23 + a1) * s1,
            gos + a2 * s2 + a3 * s23);
     o4 := ((a4 * c234 + a3 * c23 + a2 * c2 + a1) * c1,
            (a4 * c234 + a3 * c23 + a2 * c2 + a1) * s1,
            gos + a2 * s2 + a3 * s23 + a4 * s234) |}.

(** plotting.py:38-91: the points, once the angles are computed. *)
Definition positions (state : list R) (gnd_offset : R) : result Points :=
  angles <- joint_angles state ;;
  let '(t1, t2, t3, t4) := angles in
  Ok (link_points t1 t2 t3 t4 gnd_offset).

(** plotting.py:93-97: the five zipped lines. *)
Definition zipped_lines (p : Points) : list Line :=
  let l0 := zip (gnd p) (base p) in
  let l1 := zip (base p) (o1 p) in
  let l2 := zip (o1 p) (o2 p) in
  let l3 := zip (o2 p) (o3 p) in
  let l4 := zip (o3 p) (o4 p) in
  [l0; l1; l2; l3; l4].

(** plotting.py:101-110: the plotting loop, the axis limits and the view. *)
Definition render (ax : Axes) (p : Points) (lw : Z) (lock_axes rotate : bool)
  : Axes :=
  let ax := fold_left (fun ax line => plot ax line lw) (zipped_lines p) ax in
  let ax := if lock_axes
            then set_zlim3d (set_ylim3d (set_xlim3d ax (0, 80)%Z) (0, 80)%Z)
                            (0, 50)%Z
            else ax in
  if rotate then view_init ax (-137)%Z 35%Z else ax.

(** plotting.py:26: the keyword defaults. *)
Definition lw_default : Z := 2%Z.
Definition lock_axes_default : bool := true.
Definition rotate_default : bool := true.
Definition gnd_offset_default : R := 171 / 10.

Definition or_default {A : Type} (d : A) (o : option A) : A :=
  match o with
  | Some a => a
  | None => d
  end.

(** plotting.py:26-112.  A keyword argument left out is [None]; the function
    returns nothing, its effect is the updated axis. *)
Definition draw_exc (ax : Axes) (state : list R) (lw : option Z)
    (lock_axes rotate : option bool) (gnd_offset : option R) : result Axes :=
  let lw := or_default lw_default lw in
  let lock_axes := or_default lock_axes_default lock_axes in
  let rotate := or_default rotate_default rotate in
  let gnd_offset := or_default gnd_offset_default gnd_offset in
  p <- positions state gnd_offset ;;
  Ok (render ax p lw lock_axes rotate).

End DrawExc.

(** ** Valid states and well-formed tables *)

Section Validity.

Variable exc : ExcTable.

Open Scope R_scope.

(** An argument [np.arccos] accepts: a number of [-1, 1]. *)
Definition arg_ok (q : npfloat) : bool :=
  match q with
  | Num a => in_domainb a
  | NaN => false
  end.

(** The five arguments handed to [np.arccos] during one call, in the order
    of the source (plotting.py:38-61). *)
Definition arccos_args (state : list R)
  : result (npfloat * npfloat * npfloat * npfloat * npfloat) :=
  _ <- getitem state 3 ;;
  q1 <- boom_arg exc state ;;
  q2 <- stick_arg exc state ;;
  q3 <- efh_arg exc state ;;
  r_o3h <- diagonal exc (np_arccos q3) ;;
  q4 <- f3h_arg exc r_o3h ;;
  q5 <- h3g_arg exc r_o3h ;;
  Ok (q1, q2, q3, q4, q5).

Definition all_ok (qs : npfloat * npfloat * npfloat * npfloat * npfloat)
  : bool :=
  let '(q1, q2, q3, q4, q5) := qs in
  arg_ok q1 && arg_ok q2 && arg_ok q3 && arg_ok q4 && arg_ok q5.

(** A valid actuator state: every [np.arccos] of the call gets an argument
    of [-1, 1]. *)
Definition validb (state : list R) : bool :=
  match arccos_args state with
  | Ok qs => all_ok qs
  | Raise _ => false
  end.

Definition valid (state : list R) : Prop := validb state = true.

(** A table none of whose triangles is flat: the five divisors of
    plotting.py:47-61 are nonzero whatever the state. *)
Definition nondegenerate : Prop :=
  r_o1b exc * r_o1a exc <> 0 /\
  r_o2c exc * r_o2d exc <> 0 /\
  r_ef exc * r_fh exc <> 0 /\
  r_o3f exc <> 0 /\
  r_o3g exc <> 0 /\
  (r_o3f exc) ^ 2 <> (r_fh exc) ^ 2.

End Validity.

(** ** Points with real coordinates *)

Definition R3 : Type := (R * R * R)%type.

Definition inj3 (P : R3) : array3 :=
  let '(x, y, z) := P in (Num x, Num y, Num z).

Definition finite (p : array3) : Prop := exists P : R3, p = inj3 P.

Definition all_nan (p : array3) : Prop := p = (NaN, NaN, NaN).

Definition points_list (p : Points) : list array3 :=
  [gnd p; base p; o1 p; o2 p; o3 p; o4 p].

Definition map_points (f : array3 -> array3) (p : Points) : Points :=
  {| gnd := f (gnd p); base := f (base p);
     o1 := f (o1 p); o2 := f (o2 p); o3 := f (o3 p); o4 := f (o4 p) |}.

Definition dist (P Q : R3) : R :=
  let '(x1, y1, z1) := P in
  let '(x2, y2, z2) := Q in
  sqrt ((x2 - x1) ^ 2 + (y2 - y1) ^ 2 + (z2 - z1) ^ 2).

(** Rotation by [d] about the vertical axis through the origin. *)
Definition rot_z (d : R) (p : array3) : array3 :=
  let '(x, y, z) := p in
  (x * cos d - y * sin d, x * sin d + y * cos d, z)%fl.

(** The angles with the swing angle replaced. *)
Definition set_t1 (t1 : npfloat)
    (angles : npfloat * npfloat * npfloat * npfloat)
  : npfloat * npfloat * npfloat * npfloat :=
  let '(_, t2, t3, t4) := angles in (t1, t2, t3, t4).

(** The lines a call has added to an axis that held [before]. *)
Definition drawn_since (before after : Axes) : list (Line * Z) :=
  skipn (length (lines before)) (lines after).

Definition with_lw (lw : Z) (ls : list Line) : list (Line * Z) :=
  map (fun l => (l, lw)) ls.

(** ** The formulas of the specification *)

Module Spec.

Open Scope R_scope.

(** Inverse law of cosines: the angle enclosed by the sides [s1] and [s2] of
    a triangle whose third side is [s3]. *)
Definition cos_rule_arg (s1 s2 s3 : R) : R :=
  (s1 ^ 2 + s2 ^ 2 - s3 ^ 2) / (2 * s1 * s2).

Definition cos_rule_angle (s1 s2 s3 : R) : R :=
  acos (cos_rule_arg s1 s2 s3).

(** Direct law of cosines: the side facing the angle [g] enclosed by [s1]
    and [s2]. *)
Definition cos_rule_side (s1 s2 g : R) : R :=
  sqrt (s1 ^ 2 + s2 ^ 2 - 2 * s1 * s2 * cos g).

(** The two-stage solve of the bucket angle from the enclosed angle
    [a_efh]. *)
Definition bucket_two_stage (exc : ExcTable) (a_efh : R) : R :=
  let a_hf3 := PI - a_dfe exc - a_efh in
  let r_o3h := cos_rule_side (r_o3f exc) (r_fh exc) a_hf3 in
  let a_f3h := cos_rule_angle r_o3h (r_o3f exc) (r_fh exc) in
  let a_h3g := cos_rule_angle r_o3h (r_o3g exc) (r_gh exc) in
  3 * PI - a_f3h - a_h3g - a_g34 exc - a_23d exc.

(** Sum of a list of reals. *)
Definition Rsum (l : list R) : R := fold_right Rplus 0 l.

(** [theta ts k]: the cumulative planar angle of link [k], the sum of the
    joint angles 2..k ([ts] lists t2, t3, ...); 0 for the first link. *)
Definition theta (ts : list R) (k : nat) : R := Rsum (firstn (k - 1) ts).

(** Horizontal reach and vertical rise of the end of link [k]; [ls] lists
    the link lengths a1, a2, ... *)
Definition reach (ls ts : list R) (k : nat) : R :=
  Rsum (map (fun i => nth (i - 1) ls 0 * cos (theta ts i)) (seq 1 k)).

Definition rise (ls ts : list R) (k : nat) : R :=
  Rsum (map (fun i => nth (i - 1) ls 0 * sin (theta ts i)) (seq 1 k)).

Definition link_end (ls ts : list R) (t1 gos : R) (k : nat) : R3 :=
  (reach ls ts k * cos t1, reach ls ts k * sin t1, gos + rise ls ts k).

End Spec.

(** ** A sample table and sample states *)

Open Scope R_scope.

(** Every pivot triangle is the 3-4-5 right triangle at rest, all angular
    offsets are zero. *)
Definition demo_exc : ExcTable :=
  {| a1 := 1; a2 := 2; a3 := 2; a4 := 1;
     r_cyl1 := 5; r_cyl2 := 5; r_cyl3 := 5;
     r_o1a := 4; r_o1b := 3;
     r_o2c := 3; r_o2d := 4;
     r_ef := 3; r_fh := 4;
     r_o3f := 3; r_o3g := 3; r_gh := 4;
     a_b12 := 0; a_a1x1 := 0;
     a_12c := 0; a_d23 := 0;
     a_dfe := 0;
     a_g34 := 0; a_23d := 0 |}.

(** All cylinders at rest, no swing. *)
Definition rest_state : list R := [0; 0; 0; 0].

(** The boom cylinder extended beyond the reach of its triangle. *)
Definition overextended_state : list R := [5; 0; 0; 0].

Definition empty_axes : Axes :=
  {| lines := []; xlim3d := None; ylim3d := None; zlim3d := None;
     view := None |}.

(** ** The other functions of plotting.py

    [orient_plot] works on the axis of [draw_exc].  The scatter plots build a
    new figure, modelled by the scatter collections of its 3D axis and its
    title.  A numpy array of two dimensions is the list of its rows, which
    have a common length; [itertools.cycle] over a list is the list and the
    number of items drawn so far. *)

(** plotting.py:115-119. *)
Definition orient_plot (ax : Axes) : Axes :=
  let ax := set_xlim3d ax (-20, 80)%Z in
  let ax := set_ylim3d ax (0, 80)%Z in
  let ax := set_zlim3d ax (0, 50)%Z in
  view_init ax (-142)%Z 14%Z.

(** The limits and the view of an axis. *)
Definition frame (ax : Axes)
  : option (Z * Z) * option (Z * Z) * option (Z * Z) * option (Z * Z) :=
  (xlim3d ax, ylim3d ax, zlim3d ax, view ax).

(** Exceptions of the helpers: those of [draw_exc] and the end of an
    iterator. *)
Inductive error : Set :=
| Exn (e : exn)
| StopIteration.

Inductive outcome (A : Type) : Type :=
| Return (a : A)
| Throw (e : error).

Arguments Return {A} a.
Arguments Throw {A} e.

Definition obind {A B : Type} (m : outcome A) (k : A -> outcome B)
  : outcome B :=
  match m with
  | Return a => k a
  | Throw e => Throw e
  end.

Notation "x <-- m ;; k" := (obind m (fun x => k))
  (at level 61, m at next level, right associativity) : result_scope.

(** [l[i]] on a Python list: a negative index counts from the end. *)
Definition py_index {A : Type} (l : list A) (i : Z) : outcome A :=
  let n := Z.of_nat (length l) in
  let j := if (i <? 0)%Z then (i + n)%Z else i in
  if ((j <? 0) || (n <=? j))%Z then Throw (Exn IndexError)
  else match nth_error l (Z.to_nat j) with
       | Some x => Return x
       | None => Throw (Exn IndexError)
       end.

(** [itertools.cycle] over a list. *)
Record Cycle : Type := {
  items : list String.string;
  drawn : nat
}.

Definition cycle (l : list String.string) : Cycle :=
  {| items := l; drawn := 0 |}.

(** [colors.next()]: the next item, or [StopIteration] on an empty cycle. *)
Definition cycle_next (c : Cycle) : outcome (String.string * Cycle) :=
  match nth_error (items c) (drawn c mod length (items c)) with
  | Some x => Return (x, {| items := items c; drawn := S (drawn c) |})
  | None => Throw StopIteration
  end.

Module Palette.
Import String.
Local Open Scope string_scope.

(** plotting.py:168. *)
Definition csets : list (list string) :=
  [["navy"; "c"; "cornflowerblue"; "gold"; "darkorange"; "r"]].

(** The title of a figure before [plt.title]. *)
Definition no_title : string := "".

End Palette.

(** plotting.py:164-170. *)
Definition get_color_cycle (ind : Z) : outcome Cycle :=
  cset <-- py_index Palette.csets ind ;;
  Return (cycle cset).

(** One [ax.scatter] call: the flattened x, y and z data and the colour. *)
Record Scatter : Type := {
  xs3d : list R;
  ys3d : list R;
  zs3d : list R;
  facecolor : String.string
}.

Record Figure : Type := {
  collections : list Scatter;
  title : String.string
}.

(** [plt.figure()] followed by [fig.gca(projection='3d')]. *)
Definition new_figure : Figure :=
  {| collections := []; title := Palette.no_title |}.

Definition scatter (fig : Figure) (xs ys zs : list R) (c : String.string)
  : Figure :=
  {| collections := collections fig
                    ++ [{| xs3d := xs; ys3d := ys; zs3d := zs;
                           facecolor := c |}];
     title := title fig |}.

Definition set_title (fig : Figure) (t : String.string) : Figure :=
  {| collections := collections fig; title := t |}.

(** [a[lo:hi]] along the first axis. *)
Definition slice {A : Type} (a : list A) (lo hi : nat) : list A :=
  firstn (hi - lo) (skipn lo a).

(** [np.split(a, 3)]: three equal parts along the first axis, [ValueError]
    when the length is not a multiple of 3. *)
Definition np_split3 {A : Type} (a : list A)
  : outcome (list A * list A * list A) :=
  let n := length a in
  if (n mod 3 =? 0)%nat
  then let k := (n / 3)%nat in
       Return (slice a 0 k, slice a k (2 * k), slice a (2 * k) (3 * k))
  else Throw (Exn ValueError).

(** Row-major flattening, as [scatter] does to its data. *)
Definition ravel (a : list (list R)) : list R := concat a.

(** plotting.py:122-138.  [is_color] is the colour check of [ax.scatter],
    which raises ValueError on a string that names no colour; the arguments
    of the call, hence [np.split], are evaluated first. *)
Definition plot_3d_scatter (is_color : String.string -> bool)
    (states : list (list R)) (t c : String.string) : outcome Figure :=
  let fig := new_figure in
  parts <-- np_split3 states ;;
  let '(x, y, z) := parts in
  if is_color c
  then let fig := scatter fig (ravel x) (ravel y) (ravel z) c in
       Return (set_title fig t)
  else Throw (Exn ValueError).

(** The colours of the colour set of plotting.py:168, all of them colour
    names of matplotlib. *)
Definition palette_color (c : String.string) : bool :=
  existsb (String.eqb c) (concat Palette.csets).

(** [np.unique]: the sorted distinct values. *)
Fixpoint insert_unique (x : Z) (l : list Z) : list Z :=
  match l with
  | [] => [x]
  | y :: r =>
      if (x <? y)%Z then x :: l
      else if (x =? y)%Z then l
      else y :: insert_unique x r
  end.

Definition np_unique (labels : list Z) : list Z :=
  fold_right insert_unique [] labels.

(** [labels == i], element by element. *)
Definition mask_eq (labels : list Z) (i : Z) : list bool :=
  map (fun l => (l =? i)%Z) labels.

(** The rows a boolean mask of the right length selects. *)
Fixpoint select {A : Type} (mask : list bool) (rows : list A) : list A :=
  match mask, rows with
  | b :: mask', r :: rows' =>
      if b then r :: select mask' rows' else select mask' rows'
  | _, _ => []
  end.

(** Entry [j] of every row, [IndexError] past the end of a row. *)
Fixpoint column (rows : list (list R)) (j : nat) : outcome (list R) :=
  match rows with
  | [] => Return []
  | r :: rows' =>
      match nth_error r j with
      | Some x => xs <-- column rows' j ;; Return (x :: xs)
      | None => Throw (Exn IndexError)
      end
  end.

(** [states[mask, j]]: a mask whose length is not the number of rows raises
    [IndexError] (numpy 1.13 and later). *)
Definition mask_column (states : list (list R)) (mask : list bool) (j : nat)
  : outcome (list R) :=
  if (length mask =? length states)%nat
  then column (select mask states) j
  else Throw (Exn IndexError).

(** plotting.py:155-158: the loop over the distinct labels. *)
Fixpoint scatter_clusters (states : list (list R)) (labels : list Z)
    (uniq : list Z) (fig : Figure) (colors : Cycle)
  : outcome (Figure * Cycle) :=
  match uniq with
  | [] => Return (fig, colors)
  | i :: uniq' =>
      xs <-- mask_column states (mask_eq labels i) 0 ;;
      ys <-- mask_column states (mask_eq labels i) 1 ;;
      zs <-- mask_column states (mask_eq labels i) 2 ;;
      cc <-- cycle_next colors ;;
      let '(c, colors) := cc in
      scatter_clusters states labels uniq' (scatter fig xs ys zs c) colors
  end.

(** plotting.py:141-161.  The figure is returned; the cycle handed in has
    advanced. *)
Definition plot_3d_labeled_clusters (states : list (list R))
    (labels : list Z) (t : String.string) (colors : Cycle)
  : outcome (Figure * Cycle) :=
  let fig := new_figure in
  r <-- scatter_clusters states labels (np_unique labels) fig colors ;;
  let '(fig, colors) := r in
  Return (set_title fig t, colors).



(** The rows of [states] whose label is [i], in the order of the array. *)
Definition rows_of (states : list (list R)) (labels : list Z) (i : Z)
  : list (list R) :=
  select (mask_eq labels i) states.

(** ** Scalars and the primitive operations *)

Tactic Notation "fsimpl" :=
  cbn [fadd fsub fmul fpow lift1 lift2 np_cos np_sin bind rmap].
Tactic Notation "fsimpl" "in" hyp(H) :=
  cbn [fadd fsub fmul fpow lift1 lift2 np_cos np_sin bind rmap] in H.

Lemma in_domainb_true (a : R) : in_domainb a = true <-> -1 <= a <= 1.
Proof.
  unfold in_domainb.
  destruct (Rle_dec (-1) a); destruct (Rle_dec a 1); split; intros H;
    try reflexivity; try discriminate; lra.
Qed.

Lemma in_domainb_false (a : R) : in_domainb a = false <-> ~ (-1 <= a <= 1).
Proof.
  rewrite <- in_domainb_true.
  destruct (in_domainb a); split; intros H; congruence.
Qed.

Lemma arg_ok_true (q : npfloat) :
  arg_ok q = true <-> exists a, q = Num a /\ -1 <= a <= 1.
Proof.
  destruct q as [a|]; cbn [arg_ok].
  - rewrite in_domainb_true. split.
    + intros H. now exists a.
    + intros (b & Hb & H). now injection Hb as ->.
  - split; [discriminate | intros (b & Hb & _); discriminate].
Qed.

Lemma np_arccos_in (a : R) : -1 <= a <= 1 -> np_arccos (Num a) = Num (acos a).
Proof.
  intros H. cbn [np_arccos].
  now apply in_domainb_true in H as ->.
Qed.

Lemma np_arccos_out (q : npfloat) : arg_ok q = false -> np_arccos q = NaN.
Proof.
  destruct q as [a|]; cbn [arg_ok np_arccos]; [|reflexivity].
  now intros ->.
Qed.

Lemma np_arccos_num (q : npfloat) (t : R) :
  np_arccos q = Num t -> exists a, q = Num a /\ -1 <= a <= 1 /\ t = acos a.
Proof.
  destruct q as [a|]; cbn [np_arccos]; [|discriminate].
  destruct (in_domainb a) eqn:E; [|discriminate].
  intros [= <-]. exists a. apply in_domainb_true in E. auto.
Qed.

Lemma py_div_num (a b : R) : b <> 0 -> py_div (Num a) (Num b) = Ok (Num (a / b)).
Proof.
  intros H. unfold py_div. now destruct (Req_dec_T b 0).
Qed.

Lemma py_div_zero (x : npfloat) (b : R) :
  b = 0 -> py_div x (Num b) = Raise ZeroDivisionError.
Proof.
  intros H. unfold py_div. now destruct (Req_dec_T b 0).
Qed.

Lemma py_div_nan_l (b : R) : b <> 0 -> py_div NaN (Num b) = Ok NaN.
Proof.
  intros H. unfold py_div. now destruct (Req_dec_T b 0).
Qed.

Lemma math_sqrt_num (a : R) : 0 <= a -> math_sqrt (Num a) = Ok (Num (sqrt a)).
Proof.
  intros H. unfold math_sqrt. destruct (Rlt_dec a 0); [lra | reflexivity].
Qed.

Lemma getitem_some (state : list R) (i : nat) (x : R) :
  nth_error state i = Some x -> getitem state i = Ok (Num x).
Proof. unfold getitem. now intros ->. Qed.

Lemma getitem_ok (state : list R) (i : nat) (q : npfloat) :
  getitem state i = Ok q -> exists x, nth_error state i = Some x /\ q = Num x.
Proof.
  unfold getitem. destruct (nth_error state i) as [x|]; [|discriminate].
  intros [= <-]. now exists x.
Qed.

(** ** The radicand of the direct law of cosines *)

Lemma radicand_nonneg (f h c : R) :
  -1 <= c <= 1 -> 0 <= f ^ 2 + h ^ 2 - 2 * f * h * c.
Proof.
  intros Hc.
  destruct (Rle_dec 0 (f * h)) as [Hp|Hn].
  - assert (0 <= (f - h) ^ 2) by (apply pow2_ge_0). nra.
  - assert (0 <= (f + h) ^ 2) by (apply pow2_ge_0). nra.
Qed.

Lemma radicand_pos (f h c : R) :
  -1 <= c <= 1 -> f ^ 2 <> h ^ 2 -> 0 < f ^ 2 + h ^ 2 - 2 * f * h * c.
Proof.
  intros Hc Hne.
  destruct (Rle_dec 0 (f * h)) as [Hp|Hn].
  - assert (0 < (f - h) ^ 2).
    { assert (f - h <> 0) by (intros E; apply Hne; replace f with h by lra; ring).
      assert (0 <= (f - h) ^ 2) by (apply pow2_ge_0).
      assert ((f - h) ^ 2 <> 0) by (apply pow_nonzero; assumption).
      lra. }
    nra.
  - assert (0 < (f + h) ^ 2).
    { assert (f + h <> 0).
      { intros E. apply Hne. replace f with (- h) by lra. ring. }
      assert (0 <= (f + h) ^ 2) by (apply pow2_ge_0).
      assert ((f + h) ^ 2 <> 0) by (apply pow_nonzero; assumption).
      lra. }
    nra.
Qed.

Lemma diagonal_num (exc : ExcTable) (x : R) :
  diagonal exc (Num x)
  = Ok (Num (Spec.cos_rule_side (r_o3f exc) (r_fh exc) (PI - a_dfe exc - x))).
Proof.
  unfold diagonal. fsimpl. apply math_sqrt_num.
  apply radicand_nonneg. apply COS_bound.
Qed.

Lemma diagonal_nan (exc : ExcTable) : diagonal exc NaN = Ok NaN.
Proof. reflexivity. Qed.

Lemma cos_rule_side_pos (f h g : R) :
  f ^ 2 <> h ^ 2 -> 0 < Spec.cos_rule_side f h g.
Proof.
  intros H. unfold Spec.cos_rule_side. apply sqrt_lt_R0.
  apply radicand_pos; [apply COS_bound | assumption].
Qed.

(** ** The arguments of [np.arccos] and the joint angles *)

Section Angles.

Variable exc : ExcTable.

Lemma boom_arg_some (state : list R) (bm : R) :
  nth_error state 0 = Some bm ->
  boom_arg exc state
  = py_div (Num ((r_o1b exc) ^ 2 + (r_o1a exc) ^ 2 - (bm + r_cyl1 exc) ^ 2))
           (Num (2 * r_o1b exc * r_o1a exc)).
Proof.
  intros H. unfold boom_arg. now rewrite (getitem_some _ _ H).
Qed.

Lemma stick_arg_some (state : list R) (sk : R) :
  nth_error state 1 = Some sk ->
  stick_arg exc state
  = py_div (Num ((r_o2c exc) ^ 2 + (r_o2d exc) ^ 2 - (sk + r_cyl2 exc) ^ 2))
           (Num (2 * r_o2c exc * r_o2d exc)).
Proof.
  intros H. unfold stick_arg. now rewrite (getitem_some _ _ H).
Qed.

Lemma efh_arg_some (state : list R) (bk : R) :
  nth_error state 2 = Some bk ->
  efh_arg exc state
  = py_div (Num ((r_ef exc) ^ 2 + (r_fh exc) ^ 2 - (bk + r_cyl3 exc) ^ 2))
           (Num (2 * r_ef exc * r_fh exc)).
Proof.
  intros H. unfold efh_arg. now rewrite (getitem_some _ _ H).
Qed.

Lemma f3h_arg_num (r : R) :
  f3h_arg exc (Num r)
  = py_div (Num (r ^ 2 + (r_o3f exc) ^ 2 - (r_fh exc) ^ 2))
           (Num (2 * r * r_o3f exc)).
Proof. reflexivity. Qed.

Lemma h3g_arg_num (r : R) :
  h3g_arg exc (Num r)
  = py_div (Num (r ^ 2 + (r_o3g exc) ^ 2 - (r_gh exc) ^ 2))
           (Num (2 * r * r_o3g exc)).
Proof. reflexivity. Qed.

(** The angles are the arccosines of the five arguments, combined with the
    fixed offsets; both computations raise in the same cases. *)
Lemma joint_angles_args (state : list R) :
  joint_angles exc state
  = (qs <- arccos_args exc state ;;
     t1 <- getitem state 3 ;;
     let '(q1, q2, _, q4, q5) := qs in
     Ok (t1,
         np_arccos q1 - a_b12 exc - a_a1x1 exc,
         3 * PI - a_12c exc - np_arccos q2 - a_d23 exc,
         3 * PI - np_arccos q4 - np_arccos q5 - a_g34 exc - a_23d exc)%fl).
Proof.
  unfold joint_angles, arccos_args, boom_angle, stick_angle, bucket_angle.
  destruct (getitem state 3) as [t1|e]; cbn [bind]; [|reflexivity].
  destruct (boom_arg exc state) as [q1|e]; cbn [bind]; [|reflexivity].
  destruct (stick_arg exc state) as [q2|e]; cbn [bind]; [|reflexivity].
  destruct (efh_arg exc state) as [q3|e]; cbn [bind]; [|reflexivity].
  destruct (diagonal exc (np_arccos q3)) as [r|e]; cbn [bind]; [|reflexivity].
  destruct (f3h_arg exc r) as [q4|e]; cbn [bind]; [|reflexivity].
  destruct (h3g_arg exc r) as [q5|e]; cbn [bind]; reflexivity.
Qed.

End Angles.

Lemma py_div_ok (a b : R) (q : npfloat) :
  py_div (Num a) (Num b) = Ok q -> b <> 0 /\ q = Num (a / b).
Proof.
  unfold py_div. destruct (Req_dec_T b 0); [discriminate|].
  intros [= <-]. auto.
Qed.

Section ValidStates.

Variable exc : ExcTable.

Import Spec.

(** What validity says in terms of the formulas of the specification. *)
Lemma valid_elim (state : list R) :
  valid exc state ->
  exists bm sk bk sw,
    nth_error state 0 = Some bm /\ nth_error state 1 = Some sk /\
    nth_error state 2 = Some bk /\ nth_error state 3 = Some sw /\
    let q1 := cos_rule_arg (r_o1b exc) (r_o1a exc) (bm + r_cyl1 exc) in
    let q2 := cos_rule_arg (r_o2c exc) (r_o2d exc) (sk + r_cyl2 exc) in
    let q3 := cos_rule_arg (r_ef exc) (r_fh exc) (bk + r_cyl3 exc) in
    let r := cos_rule_side (r_o3f exc) (r_fh exc)
                           (PI - a_dfe exc - acos q3) in
    let q4 := cos_rule_arg r (r_o3f exc) (r_fh exc) in
    let q5 := cos_rule_arg r (r_o3g exc) (r_gh exc) in
    arccos_args exc state = Ok (Num q1, Num q2, Num q3, Num q4, Num q5) /\
    -1 <= q1 <= 1 /\ -1 <= q2 <= 1 /\ -1 <= q3 <= 1 /\
    -1 <= q4 <= 1 /\ -1 <= q5 <= 1 /\
    2 * r_o1b exc * r_o1a exc <> 0 /\ 2 * r_o2c exc * r_o2d exc <> 0 /\
    2 * r_ef exc * r_fh exc <> 0 /\
    2 * r * r_o3f exc <> 0 /\ 2 * r * r_o3g exc <> 0.
Proof.
  unfold valid, validb. intros H.
  destruct (arccos_args exc state) as [[[[[q1 q2] q3] q4] q5]|] eqn:E;
    [|discriminate].
  cbn [all_ok] in H.
  repeat (apply andb_true_iff in H; destruct H as [H ?]).
  repeat match goal with
         | K : arg_ok _ = true |- _ =>
             apply arg_ok_true in K; destruct K as (? & -> & ?)
         end.
  unfold arccos_args in E.
  destruct (getitem state 3) as [t1|] eqn:E3; [|discriminate].
  apply getitem_ok in E3 as (sw & Hsw & _). cbn [bind] in E.
  unfold boom_arg, stick_arg, efh_arg in E.
  destruct (getitem state 0) as [s0|] eqn:E0; [|discriminate].
  apply getitem_ok in E0 as (bm & Hbm & ->). cbn [bind] in E.
  fsimpl in E.
  match type of E with
  | context [py_div (Num ?a) (Num ?b)] =>
      destruct (py_div (Num a) (Num b)) as [q|] eqn:D1; [|discriminate]
  end.
  apply py_div_ok in D1 as (N1 & ->). cbn [bind] in E.
  destruct (getitem state 1) as [s1|] eqn:E1; [|discriminate].
  apply getitem_ok in E1 as (sk & Hsk & ->). cbn [bind] in E.
  fsimpl in E.
  match type of E with
  | context [py_div (Num ?a) (Num ?b)] =>
      destruct (py_div (Num a) (Num b)) as [q|] eqn:D2; [|discriminate]
  end.
  apply py_div_ok in D2 as (N2 & ->). cbn [bind] in E.
  destruct (getitem state 2) as [s2|] eqn:E2; [|discriminate].
  apply getitem_ok in E2 as (bk & Hbk & ->). cbn [bind] in E.
  fsimpl in E.
  match type of E with
  | context [py_div (Num ?a) (Num ?b)] =>
      destruct (py_div (Num a) (Num b)) as [q|] eqn:D3; [|discriminate]
  end.
  apply py_div_ok in D3 as (N3 & ->). cbn [bind] in E.
  cbn [np_arccos] in E.
  match type of E with
  | context [in_domainb ?v] => destruct (in_domainb v) eqn:A3
  end.
  2:{ rewrite diagonal_nan in E. cbn in E. discriminate. }
  rewrite diagonal_num in E. cbn [bind] in E.
  rewrite f3h_arg_num, h3g_arg_num in E.
  match type of E with
  | context [py_div (Num ?a) (Num ?b)] =>
      destruct (py_div (Num a) (Num b)) as [q|] eqn:D4; [|discriminate]
  end.
  apply py_div_ok in D4 as (N4 & ->). cbn [bind] in E.
  match type of E with
  | context [bind (py_div (Num ?a) (Num ?b))] =>
      destruct (py_div (Num a) (Num b)) as [q|] eqn:D5; [|discriminate]
  end.
  apply py_div_ok in D5 as (N5 & ->). cbn [bind] in E.
  injection E as <- <- <- <- <-.
  exists bm, sk, bk, sw. repeat split; auto; unfold cos_rule_arg; tauto.
Qed.

End ValidStates.

Section ValidAngles.

Variable exc : ExcTable.

Import Spec.

(** On a valid state the four angles are real numbers, given by the formulas
    of the specification. *)
Lemma valid_angles (state : list R) :
  valid exc state ->
  exists bm sk bk sw,
    nth_error state 0 = Some bm /\ nth_error state 1 = Some sk /\
    nth_error state 2 = Some bk /\ nth_error state 3 = Some sw /\
    joint_angles exc state
    = Ok (Num sw,
          Num (cos_rule_angle (r_o1b exc) (r_o1a exc) (bm + r_cyl1 exc)
               - a_b12 exc - a_a1x1 exc),
          Num (3 * PI - a_12c exc
               - cos_rule_angle (r_o2c exc) (r_o2d exc) (sk + r_cyl2 exc)
               - a_d23 exc),
          Num (bucket_two_stage exc
                 (cos_rule_angle (r_ef exc) (r_fh exc) (bk + r_cyl3 exc)))).
Proof.
  intros H. apply valid_elim in H.
  destruct H as (bm & sk & bk & sw & H0 & H1 & H2 & H3 & H).
  cbv zeta in H. destruct H as (E & R1 & R2 & R3 & R4 & R5 & _).
  exists bm, sk, bk, sw. repeat (split; [assumption|]).
  rewrite joint_angles_args, E. cbn [bind].
  rewrite (getitem_some _ _ H3). cbn [bind].
  rewrite !np_arccos_in by assumption.
  reflexivity.
Qed.

Lemma valid_finite_angles (state : list R) :
  valid exc state ->
  exists t1 t2 t3 t4 : R,
    joint_angles exc state = Ok (Num t1, Num t2, Num t3, Num t4).
Proof.
  intros H. apply valid_angles in H.
  destruct H as (bm & sk & bk & sw & _ & _ & _ & _ & E).
  rewrite E. eauto.
Qed.

(** A table without flat triangles never raises on a state of four
    components. *)
Lemma nondegenerate_args (bm sk bk sw : R) :
  nondegenerate exc ->
  exists qs, arccos_args exc [bm; sk; bk; sw] = Ok qs.
Proof.
  intros (N1 & N2 & N3 & N4 & N5 & N6).
  unfold arccos_args. cbn [getitem nth_error bind].
  rewrite (boom_arg_some exc [bm; sk; bk; sw] (bm := bm)) by reflexivity.
  rewrite py_div_num by lra. cbn [bind].
  rewrite (stick_arg_some exc [bm; sk; bk; sw] (sk := sk)) by reflexivity.
  rewrite py_div_num by lra. cbn [bind].
  rewrite (efh_arg_some exc [bm; sk; bk; sw] (bk := bk)) by reflexivity.
  rewrite py_div_num by lra. cbn [bind].
  destruct (np_arccos _) as [ang|].
  - rewrite diagonal_num. cbn [bind].
    pose proof (cos_rule_side_pos (PI - a_dfe exc - ang) N6) as Hr.
    rewrite f3h_arg_num, h3g_arg_num.
    rewrite !py_div_num by nra.
    cbn [bind]. eauto.
  - rewrite diagonal_nan. cbn. eauto.
Qed.

Lemma nondegenerate_angles (bm sk bk sw : R) :
  nondegenerate exc ->
  exists t2 t3 t4,
    joint_angles exc [bm; sk; bk; sw] = Ok (Num sw, t2, t3, t4).
Proof.
  intros N. destruct (nondegenerate_args bm sk bk sw N) as (qs & E).
  rewrite joint_angles_args, E.
  destruct qs as [[[[q1 q2] q3] q4] q5].
  cbn [bind getitem nth_error]. eauto.
Qed.

End ValidAngles.

(** ** The link points *)

Section LinkPoints.

Variable exc : ExcTable.

Lemma link_points_num (t1 t2 t3 t4 gos : R) :
  link_points exc (Num t1) (Num t2) (Num t3) (Num t4) gos
  = {| gnd := inj3 (0, 0, 0);
       base := inj3 (0, 0, gos);
       o1 := inj3 (a1 exc * cos t1, a1 exc * sin t1, gos);
       o2 := inj3 ((a2 exc * cos t2 + a1 exc) * cos t1,
                   (a2 exc * cos t2 + a1 exc) * sin t1,
                   a2 exc * sin t2 + gos);
       o3 := inj3 ((a2 exc * cos t2 + a3 exc * cos (t2 + t3) + a1 exc)
                   * cos t1,
                   (a2 exc * cos t2 + a3 exc * cos (t2 + t3) + a1 exc)
                   * sin t1,
                   gos + a2 exc * sin t2 + a3 exc * sin (t2 + t3));
       o4 := inj3 ((a4 exc * cos (t2 + t3 + t4) + a3 exc * cos (t2 + t3)
                    + a2 exc * cos t2 + a1 exc) * cos t1,
                   (a4 exc * cos (t2 + t3 + t4) + a3 exc * cos (t2 + t3)
                    + a2 exc * cos t2 + a1 exc) * sin t1,
                   gos + a2 exc * sin t2 + a3 exc * sin (t2 + t3)
                   + a4 exc * sin (t2 + t3 + t4)) |}.
Proof. reflexivity. Qed.

Lemma link_points_finite (t1 t2 t3 t4 gos : R) :
  Forall finite
    (points_list (link_points exc (Num t1) (Num t2) (Num t3) (Num t4) gos)).
Proof.
  rewrite link_points_num. unfold points_list. cbn [gnd base o1 o2 o3 o4].
  repeat constructor; eexists; reflexivity.
Qed.

(** A NaN joint angle reaches the end of the last link. *)
Lemma link_points_nan (t1 t2 t3 t4 : npfloat) (gos : R) :
  t2 = NaN \/ t3 = NaN \/ t4 = NaN ->
  all_nan (o4 (link_points exc t1 t2 t3 t4 gos)).
Proof.
  unfold all_nan.
  intros [-> | [-> | ->]]; destruct t1; try destruct t2; try destruct t3;
    try destruct t4; reflexivity.
Qed.

(** Ground and base do not depend on the angles. *)
Lemma link_points_gnd_base (t1 t2 t3 t4 : npfloat) (gos : R) :
  gnd (link_points exc t1 t2 t3 t4 gos) = inj3 (0, 0, 0) /\
  base (link_points exc t1 t2 t3 t4 gos) = inj3 (0, 0, gos).
Proof. split; reflexivity. Qed.

End LinkPoints.

(** ** The rendering *)

Lemma skipn_length_app {A : Type} (l l' : list A) :
  skipn (length l) (l ++ l') = l'.
Proof. induction l as [|x l IH]; [reflexivity | exact IH]. Qed.

Lemma render_lines (ax : Axes) (p : Points) (lw : Z) (lk rt : bool) :
  lines (render ax p lw lk rt) = lines ax ++ with_lw lw (zipped_lines p).
Proof.
  unfold render, zipped_lines, with_lw.
  destruct lk, rt; cbn; now rewrite <- !app_assoc.
Qed.

Lemma drawn_since_render (ax : Axes) (p : Points) (lw : Z) (lk rt : bool) :
  drawn_since ax (render ax p lw lk rt) = with_lw lw (zipped_lines p).
Proof.
  unfold drawn_since. rewrite render_lines. apply skipn_length_app.
Qed.

(** ** The sample table *)

Lemma demo_nondegenerate : nondegenerate demo_exc.
Proof. unfold nondegenerate. cbn. repeat split; lra. Qed.

Lemma demo_diagonal :
  Spec.cos_rule_side 3 4 (PI - 0 - acos (Spec.cos_rule_arg 3 4 (0 + 5))) = 5.
Proof.
  unfold Spec.cos_rule_arg.
  replace ((3 ^ 2 + 4 ^ 2 - (0 + 5) ^ 2) / (2 * 3 * 4)) with 0 by lra.
  rewrite acos_0.
  replace (PI - 0 - PI / 2) with (PI / 2) by lra.
  unfold Spec.cos_rule_side. rewrite cos_PI2.
  replace (3 ^ 2 + 4 ^ 2 - 2 * 3 * 4 * 0) with (5 ^ 2) by lra.
  apply sqrt_pow2. lra.
Qed.

Lemma demo_rest_args :
  arccos_args demo_exc rest_state
  = Ok (Num 0, Num 0, Num 0, Num (3 / 5), Num (3 / 5)).
Proof.
  unfold arccos_args, rest_state. cbn [getitem nth_error bind].
  rewrite (boom_arg_some demo_exc [0; 0; 0; 0] (bm := 0)) by reflexivity.
  rewrite (stick_arg_some demo_exc [0; 0; 0; 0] (sk := 0)) by reflexivity.
  rewrite (efh_arg_some demo_exc [0; 0; 0; 0] (bk := 0)) by reflexivity.
  cbn [demo_exc r_o1a r_o1b r_o2c r_o2d r_ef r_fh r_cyl1 r_cyl2 r_cyl3].
  rewrite py_div_num by lra. cbn [bind].
  replace ((3 ^ 2 + 4 ^ 2 - (0 + 5) ^ 2) / (2 * 3 * 4)) with 0 by lra.
  rewrite np_arccos_in by lra.
  rewrite diagonal_num.
  cbn [demo_exc r_o3f r_fh a_dfe].
  replace (acos 0) with (acos (Spec.cos_rule_arg 3 4 (0 + 5))).
  2:{ f_equal. unfold Spec.cos_rule_arg. lra. }
  rewrite demo_diagonal. cbn [bind].
  rewrite f3h_arg_num, h3g_arg_num.
  cbn [demo_exc r_o3f r_o3g r_fh r_gh].
  rewrite py_div_num by lra. cbn [bind].
  replace ((5 ^ 2 + 3 ^ 2 - 4 ^ 2) / (2 * 5 * 3)) with (3 / 5) by lra.
  reflexivity.
Qed.

Lemma demo_rest_valid : valid demo_exc rest_state.
Proof.
  unfold valid, validb. rewrite demo_rest_args. cbn [all_ok arg_ok].
  repeat (apply andb_true_iff; split); apply in_domainb_true; lra.
Qed.

Lemma demo_overextended_args :
  exists q2 q3 q4 q5,
    arccos_args demo_exc overextended_state
    = Ok (Num (- (25 / 8)), q2, q3, q4, q5).
Proof.
  destruct (nondegenerate_args 5 0 0 0 demo_nondegenerate) as (qs & E).
  fold overextended_state in E.
  destruct qs as [[[[q1 q2] q3] q4] q5].
  exists q2, q3, q4, q5. rewrite E. do 5 f_equal.
  unfold arccos_args, overextended_state in E.
  cbn [getitem nth_error bind] in E.
  rewrite (boom_arg_some demo_exc [5; 0; 0; 0] (bm := 5)) in E by reflexivity.
  cbn [demo_exc r_o1a r_o1b r_cyl1] in E.
  rewrite py_div_num in E by lra. cbn [bind] in E.
  destruct (stick_arg _ _); [|discriminate]. cbn [bind] in E.
  destruct (efh_arg _ _); [|discriminate]. cbn [bind] in E.
  destruct (diagonal _ _); [|discriminate]. cbn [bind] in E.
  destruct (f3h_arg _ _); [|discriminate]. cbn [bind] in E.
  destruct (h3g_arg _ _); [|discriminate]. cbn [bind] in E.
  injection E as <- _ _ _ _. f_equal. lra.
Qed.

(** ** From the arguments to the drawn points *)

Section Outcome.

Variable exc : ExcTable.

Lemma draw_exc_render (ax : Axes) (state : list R) (lw : option Z)
    (lk rt : option bool) (gos : option R) :
  draw_exc exc ax state lw lk rt gos
  = rmap (fun p => render ax p (or_default lw_default lw)
                     (or_default lock_axes_default lk)
                     (or_default rotate_default rt))
         (positions exc state (or_default gnd_offset_default gos)).
Proof.
  unfold draw_exc. now destruct (positions exc state _).
Qed.

Lemma valid_positions (state : list R) (gos : R) :
  valid exc state ->
  exists t1 t2 t3 t4 : R,
    nth_error state 3 = Some t1 /\
    joint_angles exc state = Ok (Num t1, Num t2, Num t3, Num t4) /\
    positions exc state gos
    = Ok (link_points exc (Num t1) (Num t2) (Num t3) (Num t4) gos).
Proof.
  intros H. apply valid_angles in H.
  destruct H as (bm & sk & bk & sw & _ & _ & _ & H3 & E).
  do 4 eexists. split; [exact H3|]. split; [exact E|].
  unfold positions. now rewrite E.
Qed.

(** A NaN enclosed angle makes the diagonal, hence the next argument, NaN. *)
Lemma args_nan_chain (state : list R) (q1 q2 q3 q4 q5 : npfloat) :
  arccos_args exc state = Ok (q1, q2, q3, q4, q5) ->
  arg_ok q3 = false -> q4 = NaN.
Proof.
  unfold arccos_args. intros E Hq3.
  destruct (getitem state 3); [|discriminate]. cbn [bind] in E.
  destruct (boom_arg exc state); [|discriminate]. cbn [bind] in E.
  destruct (stick_arg exc state); [|discriminate]. cbn [bind] in E.
  destruct (efh_arg exc state) as [n3|]; [|discriminate]. cbn [bind] in E.
  destruct (diagonal exc (np_arccos n3)) as [r|] eqn:Ed; [|discriminate].
  cbn [bind] in E.
  destruct (f3h_arg exc r) as [n4|] eqn:E4; [|discriminate]. cbn [bind] in E.
  destruct (h3g_arg exc r); [|discriminate]. cbn [bind] in E.
  injection E as -> -> -> -> ->.
  rewrite (np_arccos_out _ Hq3), diagonal_nan in Ed. injection Ed as <-.
  cbn in E4. now injection E4 as <-.
Qed.

(** Once the arguments are computed the call completes: with finite points
    when all arguments are in the domain, with a NaN end point otherwise. *)
Lemma args_positions (state : list R)
    (qs : npfloat * npfloat * npfloat * npfloat * npfloat) (gos : R) :
  arccos_args exc state = Ok qs ->
  exists p, positions exc state gos = Ok p /\
            if all_ok qs then Forall finite (points_list p)
            else all_nan (o4 p).
Proof.
  intros E. destruct (all_ok qs) eqn:A.
  - assert (V : valid exc state) by (unfold valid, validb; now rewrite E).
    destruct (valid_positions gos V) as (t1 & t2 & t3 & t4 & _ & _ & P).
    eexists. split; [exact P | apply link_points_finite].
  - assert (exists t1, getitem state 3 = Ok t1) as (t1 & G).
    { unfold arccos_args in E.
      destruct (getitem state 3) as [t1|]; [eauto | discriminate]. }
    unfold positions. rewrite joint_angles_args, E. cbn [bind]. rewrite G.
    destruct qs as [[[[q1 q2] q3] q4] q5]. cbn [bind].
    eexists. split; [reflexivity|].
    apply link_points_nan.
    cbn [all_ok] in A.
    repeat (apply andb_false_iff in A; destruct A as [A|A]).
    + left. now rewrite (np_arccos_out _ A).
    + right. left. rewrite (np_arccos_out _ A). reflexivity.
    + right. right. rewrite (args_nan_chain _ E A). reflexivity.
    + right. right. rewrite (np_arccos_out _ A). reflexivity.
    + right. right. rewrite (np_arccos_out _ A).
      destruct (np_arccos q4); reflexivity.
Qed.

End Outcome.

Lemma line_end_zip (p q : array3) : line_end (zip p q) = q.
Proof. destruct p as [[? ?] ?], q as [[? ?] ?]. reflexivity. Qed.

Lemma line_start_zip (p q : array3) : line_start (zip p q) = p.
Proof. destruct p as [[? ?] ?], q as [[? ?] ?]. reflexivity. Qed.

Lemma acos_m1 : acos (-1) = PI.
Proof.
  replace (-1) with (- (1)) by lra. rewrite acos_opp, acos_1. lra.
Qed.

(** ** Claim C1: the domain of the arccosines *)

(** C1 (amended).  For every table and state whose five law-of-cosines
    arguments are computed: the call completes and raises nothing; when every
    argument lies in [-1, 1] (1 and -1 included, whose angles are 0 and pi)
    all six points have real coordinates; when some argument lies outside,
    no error is reported and the end of the last link is (NaN, NaN, NaN). *)
Theorem arccos_domain_unchecked (exc : ExcTable) (state : list R)
    (qs : npfloat * npfloat * npfloat * npfloat * npfloat)
    (ax : Axes) (lw : option Z) (lk rt : option bool) (gos : option R) :
  arccos_args exc state = Ok qs ->
  exists p,
    positions exc state (or_default gnd_offset_default gos) = Ok p /\
    draw_exc exc ax state lw lk rt gos
    = Ok (render ax p (or_default lw_default lw)
            (or_default lock_axes_default lk)
            (or_default rotate_default rt)) /\
    (if all_ok qs then Forall finite (points_list p) else all_nan (o4 p)) /\
    np_arccos (Num 1) = Num 0 /\ np_arccos (Num (-1)) = Num PI.
Proof.
  intros E.
  destruct (args_positions exc state (or_default gnd_offset_default gos) E)
    as (p & P & F).
  exists p. split; [exact P|]. split.
  { rewrite draw_exc_render, P. reflexivity. }
  split; [exact F|]. split.
  - rewrite np_arccos_in by lra. now rewrite acos_1.
  - rewrite np_arccos_in by lra. now rewrite acos_m1.
Qed.

Lemma arccos_domain_unchecked_witness :
  arccos_args demo_exc rest_state
  = Ok (Num 0, Num 0, Num 0, Num (3 / 5), Num (3 / 5)) /\
  exists p,
    positions demo_exc rest_state (or_default gnd_offset_default None) = Ok p /\
    draw_exc demo_exc empty_axes rest_state None None None None
    = Ok (render empty_axes p (or_default lw_default None)
            (or_default lock_axes_default None)
            (or_default rotate_default None)) /\
    (if all_ok (Num 0, Num 0, Num 0, Num (3 / 5), Num (3 / 5))
     then Forall finite (points_list p) else all_nan (o4 p)) /\
    np_arccos (Num 1) = Num 0 /\ np_arccos (Num (-1)) = Num PI.
Proof.
  split.
  - exact demo_rest_args.
  - exact (arccos_domain_unchecked demo_exc rest_state empty_axes
             None None None None demo_rest_args).
Defined.

(** C1 as stated fails: with the boom cylinder at 5 the boom argument is
    -25/8, outside [-1, 1], yet the call returns normally and the fifth line
    ends in (NaN, NaN, NaN). *)
Lemma out_of_domain_not_reported :
  exists q,
    boom_arg demo_exc overextended_state = Ok (Num q) /\
    ~ (-1 <= q <= 1) /\
    exists ax',
      draw_exc demo_exc empty_axes overextended_state None None None None
      = Ok ax' /\
      exists l, nth_error (lines ax') 4 = Some l /\ all_nan (line_end (fst l)).
Proof.
  exists (- (25 / 8)). split; [|split; [lra|]].
  - unfold overextended_state.
    rewrite (boom_arg_some demo_exc [5; 0; 0; 0] (bm := 5)) by reflexivity.
    cbn [demo_exc r_o1a r_o1b r_cyl1].
    rewrite py_div_num by lra. do 2 f_equal. lra.
  - destruct demo_overextended_args as (q2 & q3 & q4 & q5 & E).
    destruct (args_positions demo_exc overextended_state
                (or_default gnd_offset_default None) E) as (p & P & F).
    assert (A : all_ok (Num (- (25 / 8)), q2, q3, q4, q5) = false).
    { cbn [all_ok arg_ok].
      replace (in_domainb (- (25 / 8))) with false; [reflexivity|].
      symmetry. apply in_domainb_false. lra. }
    rewrite A in F.
    eexists. split.
    + rewrite draw_exc_render, P. reflexivity.
    + rewrite render_lines. cbn [lines empty_axes app zipped_lines with_lw map
                                   nth_error].
      eexists. split; [reflexivity|]. cbn [fst].
      now rewrite line_end_zip.
Qed.

(** ** Lengths of the segments *)

Lemma sqrt_link (a th t1 : R) :
  sqrt (Rsqr a * (Rsqr (cos th) * (Rsqr (sin t1) + Rsqr (cos t1))
                  + Rsqr (sin th)))
  = Rabs a.
Proof.
  rewrite sin2_cos2, Rmult_1_r, (Rplus_comm (Rsqr (cos th))), sin2_cos2.
  rewrite Rmult_1_r. apply sqrt_Rsqr_abs.
Qed.

Lemma dist_refl (P : R3) : dist P P = 0.
Proof.
  destruct P as [[x y] z]. unfold dist.
  replace ((x - x) ^ 2 + (y - y) ^ 2 + (z - z) ^ 2) with 0 by ring.
  apply sqrt_0.
Qed.

Lemma inj3_inj (P Q : R3) : inj3 P = inj3 Q -> P = Q.
Proof.
  destruct P as [[x y] z], Q as [[x' y'] z']. cbn. now intros [= -> -> ->].
Qed.

(** The chain of real points and the length of each of its five segments. *)
Lemma chain_lengths (exc : ExcTable) (t1 t2 t3 t4 gos : R) :
  exists P0 P1 P2 P3 P4 P5 : R3,
    link_points exc (Num t1) (Num t2) (Num t3) (Num t4) gos
    = {| gnd := inj3 P0; base := inj3 P1; o1 := inj3 P2;
         o2 := inj3 P3; o3 := inj3 P4; o4 := inj3 P5 |} /\
    dist P0 P1 = Rabs gos /\
    dist P1 P2 = Rabs (a1 exc) /\
    dist P2 P3 = Rabs (a2 exc) /\
    dist P3 P4 = Rabs (a3 exc) /\
    dist P4 P5 = Rabs (a4 exc).
Proof.
  rewrite link_points_num. do 6 eexists. split; [reflexivity|].
  unfold dist. repeat split.
  - rewrite <- sqrt_Rsqr_abs. f_equal. unfold Rsqr. ring.
  - rewrite <- (sqrt_link (a1 exc) 0 t1), cos_0, sin_0.
    f_equal. unfold Rsqr. ring.
  - rewrite <- (sqrt_link (a2 exc) t2 t1). f_equal. unfold Rsqr. ring.
  - rewrite <- (sqrt_link (a3 exc) (t2 + t3) t1). f_equal. unfold Rsqr. ring.
  - rewrite <- (sqrt_link (a4 exc) (t2 + t3 + t4) t1).
    f_equal. unfold Rsqr. ring.
Qed.

(** ** Claim C2: the points and the segments drawn *)

(** C2 (amended).  For every valid actuator state the call computes an
    ordered sequence of exactly 6 points with real coordinates -- ground at
    the origin, base at the origin plus the ground offset on z, and the four
    link ends o1 .. o4 -- and adds to the axis exactly 5 lines: ground-base,
    base-o1, o1-o2, o2-o3 and o3-o4. *)
Theorem six_points_five_segments (exc : ExcTable) (state : list R)
    (ax : Axes) (lw : option Z) (lk rt : option bool) (gos : option R) :
  valid exc state ->
  exists p ax',
    positions exc state (or_default gnd_offset_default gos) = Ok p /\
    draw_exc exc ax state lw lk rt gos = Ok ax' /\
    gnd p = inj3 (0, 0, 0) /\
    base p = inj3 (0, 0, or_default gnd_offset_default gos) /\
    Forall finite (points_list p) /\
    length (points_list p) = 6%nat /\
    drawn_since ax ax'
    = with_lw (or_default lw_default lw)
        [zip (gnd p) (base p); zip (base p) (o1 p); zip (o1 p) (o2 p);
         zip (o2 p) (o3 p); zip (o3 p) (o4 p)] /\
    length (drawn_since ax ax') = 5%nat.
Proof.
  intros V.
  destruct (valid_positions (or_default gnd_offset_default gos) V)
    as (t1 & t2 & t3 & t4 & _ & _ & P).
  eexists. eexists. split; [exact P|]. split.
  { rewrite draw_exc_render, P. reflexivity. }
  split; [reflexivity|]. split; [reflexivity|].
  split; [apply link_points_finite|]. split; [reflexivity|].
  rewrite drawn_since_render. split; reflexivity.
Qed.

Lemma six_points_five_segments_witness :
  exists p ax',
    positions demo_exc rest_state (or_default gnd_offset_default None) = Ok p /\
    draw_exc demo_exc empty_axes rest_state None None None None = Ok ax' /\
    gnd p = inj3 (0, 0, 0) /\
    base p = inj3 (0, 0, or_default gnd_offset_default None) /\
    Forall finite (points_list p) /\
    length (points_list p) = 6%nat /\
    drawn_since empty_axes ax'
    = with_lw (or_default lw_default None)
        [zip (gnd p) (base p); zip (base p) (o1 p); zip (o1 p) (o2 p);
         zip (o2 p) (o3 p); zip (o3 p) (o4 p)] /\
    length (drawn_since empty_axes ax') = 5%nat.
Proof.
  exact (six_points_five_segments empty_axes None None None None
           demo_rest_valid).
Defined.

(** C2 as stated fails: on the valid rest state of the sample table the call
    draws five lines, not four, and the fifth joins two distinct points, the
    ends of the third and of the fourth link. *)
Lemma fifth_segment_drawn :
  valid demo_exc rest_state /\
  exists p ax',
    positions demo_exc rest_state gnd_offset_default = Ok p /\
    draw_exc demo_exc empty_axes rest_state None None None None = Ok ax' /\
    length (lines ax') = 5%nat /\
    length (lines ax') <> 4%nat /\
    nth_error (lines ax') 4 = Some (zip (o3 p) (o4 p), 2%Z) /\
    o3 p <> o4 p.
Proof.
  split; [exact demo_rest_valid|].
  destruct (valid_positions gnd_offset_default demo_rest_valid)
    as (t1 & t2 & t3 & t4 & _ & _ & P).
  eexists. eexists. split; [exact P|]. split.
  { rewrite draw_exc_render. cbn [or_default]. rewrite P. reflexivity. }
  rewrite render_lines. cbn [lines empty_axes app zipped_lines with_lw map].
  split; [reflexivity|]. split; [discriminate|]. split; [reflexivity|].
  destruct (chain_lengths demo_exc t1 t2 t3 t4 gnd_offset_default)
    as (P0 & P1 & P2 & P3 & P4 & P5 & E & _ & _ & _ & _ & D).
  rewrite E. cbn [o3 o4 demo_exc a4] in *. intros C.
  apply inj3_inj in C. rewrite C, dist_refl in D.
  rewrite Rabs_R1 in D. lra.
Qed.

(** ** Claim C3: the link-end positions *)

(** C3.  For every valid actuator state, with swing angle t1 and joint
    angles t2, t3, t4, the end of link k (k = 1 .. 4) is
    ((sum_{i<=k} a_i cos theta_i) cos t1, (sum_{i<=k} a_i cos theta_i) sin t1,
     gnd_offset + sum_{i<=k} a_i sin theta_i),
    where theta_i is the sum of the joint angles 2 .. i (0 for the first
    link). *)
Theorem link_end_positions (exc : ExcTable) (state : list R) (gos : R) :
  valid exc state ->
  exists (t1 t2 t3 t4 : R) (p : Points),
    nth_error state 3 = Some t1 /\
    joint_angles exc state = Ok (Num t1, Num t2, Num t3, Num t4) /\
    positions exc state gos = Ok p /\
    [o1 p; o2 p; o3 p; o4 p]
    = map (fun k => inj3 (Spec.link_end [a1 exc; a2 exc; a3 exc; a4 exc]
                            [t2; t3; t4] t1 gos k))
          [1; 2; 3; 4]%nat.
Proof.
  intros V.
  destruct (valid_positions gos V) as (t1 & t2 & t3 & t4 & H3 & E & P).
  exists t1, t2, t3, t4. eexists.
  split; [exact H3|]. split; [exact E|]. split; [exact P|].
  rewrite link_points_num. cbn [o1 o2 o3 o4 map].
  unfold Spec.link_end, Spec.reach, Spec.rise, Spec.theta, Spec.Rsum.
  cbn [seq map nth firstn fold_right Nat.sub inj3].
  rewrite !Rplus_0_r, cos_0, sin_0.
  replace (t2 + (t3 + t4)) with (t2 + t3 + t4) by ring.
  repeat (f_equal; try ring).
Qed.

Lemma link_end_positions_witness :
  exists (t1 t2 t3 t4 : R) (p : Points),
    nth_error rest_state 3 = Some t1 /\
    joint_angles demo_exc rest_state = Ok (Num t1, Num t2, Num t3, Num t4) /\
    positions demo_exc rest_state gnd_offset_default = Ok p /\
    [o1 p; o2 p; o3 p; o4 p]
    = map (fun k => inj3 (Spec.link_end
                            [a1 demo_exc; a2 demo_exc; a3 demo_exc; a4 demo_exc]
                            [t2; t3; t4] t1 gnd_offset_default k))
          [1; 2; 3; 4]%nat.
Proof.
  exact (link_end_positions gnd_offset_default demo_rest_valid).
Defined.

(** ** Claims C4 and C5: the recovery of the angles *)

Lemma joint_angles_parts (exc : ExcTable) (state : list R)
    (t1 t2 t3 t4 : npfloat) :
  joint_angles exc state = Ok (t1, t2, t3, t4) ->
  getitem state 3 = Ok t1 /\ boom_angle exc state = Ok t2 /\
  stick_angle exc state = Ok t3 /\ bucket_angle exc state = Ok t4.
Proof.
  unfold joint_angles.
  destruct (getitem state 3); [|discriminate]. cbn [bind].
  destruct (boom_angle exc state); [|discriminate]. cbn [bind].
  destruct (stick_angle exc state); [|discriminate]. cbn [bind].
  destruct (bucket_angle exc state); [|discriminate]. cbn [bind].
  now intros [= -> -> -> ->].
Qed.

Lemma cos_rule_angle_encloses (s1 s2 s3 : R) :
  2 * s1 * s2 <> 0 ->
  -1 <= Spec.cos_rule_arg s1 s2 s3 <= 1 ->
  s3 ^ 2 = s1 ^ 2 + s2 ^ 2 - 2 * s1 * s2 * cos (Spec.cos_rule_angle s1 s2 s3)
  /\ 0 <= Spec.cos_rule_angle s1 s2 s3 <= PI.
Proof.
  intros N H. unfold Spec.cos_rule_angle. split; [|apply acos_bound].
  rewrite cos_acos by assumption. unfold Spec.cos_rule_arg. field.
  split; intros Z; apply N; rewrite Z; ring.
Qed.

Lemma cos_rule_side_sqr (s1 s2 g : R) :
  (Spec.cos_rule_side s1 s2 g) ^ 2 = s1 ^ 2 + s2 ^ 2 - 2 * s1 * s2 * cos g.
Proof.
  unfold Spec.cos_rule_side. apply pow2_sqrt.
  apply radicand_nonneg. apply COS_bound.
Qed.

(** C4.  For every valid state with cylinder extensions bm, sk, bk: each
    joint takes the side s3 = extension + cylinder offset, its raw angle is
    arccos((s1^2 + s2^2 - s3^2) / (2 s1 s2)) for the two fixed sides s1, s2
    of its triangle -- the angle of [0, pi] that these sides enclose in the
    triangle of third side s3 -- and the joint angles the solver computes
    combine the raw angles with the fixed angular offsets:
    t2 = raw - a_b12 - a_a1x1, t3 = 3 pi - a_12c - raw - a_d23, and t4 is
    obtained from the raw angle and the constants alone. *)
Theorem angle_recovery (exc : ExcTable) (state : list R) :
  valid exc state ->
  exists bm sk bk sw,
    nth_error state 0 = Some bm /\ nth_error state 1 = Some sk /\
    nth_error state 2 = Some bk /\ nth_error state 3 = Some sw /\
    let raw2 := Spec.cos_rule_angle (r_o1b exc) (r_o1a exc)
                                    (bm + r_cyl1 exc) in
    let raw3 := Spec.cos_rule_angle (r_o2c exc) (r_o2d exc)
                                    (sk + r_cyl2 exc) in
    let raw4 := Spec.cos_rule_angle (r_ef exc) (r_fh exc)
                                    (bk + r_cyl3 exc) in
    joint_angles exc state
    = Ok (Num sw,
          Num (raw2 - a_b12 exc - a_a1x1 exc),
          Num (3 * PI - a_12c exc - raw3 - a_d23 exc),
          Num (Spec.bucket_two_stage exc raw4)) /\
    boom_angle exc state = Ok (Num (raw2 - a_b12 exc - a_a1x1 exc)) /\
    stick_angle exc state = Ok (Num (3 * PI - a_12c exc - raw3 - a_d23 exc)) /\
    bucket_angle exc state = Ok (Num (Spec.bucket_two_stage exc raw4)) /\
    (bm + r_cyl1 exc) ^ 2
    = (r_o1b exc) ^ 2 + (r_o1a exc) ^ 2
      - 2 * r_o1b exc * r_o1a exc * cos raw2 /\
    (sk + r_cyl2 exc) ^ 2
    = (r_o2c exc) ^ 2 + (r_o2d exc) ^ 2
      - 2 * r_o2c exc * r_o2d exc * cos raw3 /\
    (bk + r_cyl3 exc) ^ 2
    = (r_ef exc) ^ 2 + (r_fh exc) ^ 2 - 2 * r_ef exc * r_fh exc * cos raw4 /\
    0 <= raw2 <= PI /\ 0 <= raw3 <= PI /\ 0 <= raw4 <= PI.
Proof.
  intros V.
  destruct (valid_angles V) as (bm & sk & bk & sw & H0 & H1 & H2 & H3 & E).
  destruct (valid_elim V) as (bm' & sk' & bk' & sw' & H0' & H1' & H2' & _ & K).
  rewrite H0 in H0'. rewrite H1 in H1'. rewrite H2 in H2'.
  injection H0' as <-. injection H1' as <-. injection H2' as <-.
  cbv zeta in K.
  destruct K as (_ & R1 & R2 & R3 & _ & _ & N1 & N2 & N3 & _).
  pose proof (@joint_angles_parts _ _ _ _ _ _ E) as (_ & E2 & E3 & E4).
  exists bm, sk, bk, sw. repeat (split; [assumption|]). cbv zeta.
  repeat (split; [assumption|]).
  pose proof (@cos_rule_angle_encloses _ _ _ N1 R1) as (L1 & B1).
  pose proof (@cos_rule_angle_encloses _ _ _ N2 R2) as (L2 & B2).
  pose proof (@cos_rule_angle_encloses _ _ _ N3 R3) as (L3 & B3).
  repeat split; try assumption; tauto.
Qed.

Lemma angle_recovery_witness :
  exists bm sk bk sw,
    nth_error rest_state 0 = Some bm /\ nth_error rest_state 1 = Some sk /\
    nth_error rest_state 2 = Some bk /\ nth_error rest_state 3 = Some sw /\
    let raw2 := Spec.cos_rule_angle (r_o1b demo_exc) (r_o1a demo_exc)
                                    (bm + r_cyl1 demo_exc) in
    let raw3 := Spec.cos_rule_angle (r_o2c demo_exc) (r_o2d demo_exc)
                                    (sk + r_cyl2 demo_exc) in
    let raw4 := Spec.cos_rule_angle (r_ef demo_exc) (r_fh demo_exc)
                                    (bk + r_cyl3 demo_exc) in
    joint_angles demo_exc rest_state
    = Ok (Num sw,
          Num (raw2 - a_b12 demo_exc - a_a1x1 demo_exc),
          Num (3 * PI - a_12c demo_exc - raw3 - a_d23 demo_exc),
          Num (Spec.bucket_two_stage demo_exc raw4)) /\
    boom_angle demo_exc rest_state
    = Ok (Num (raw2 - a_b12 demo_exc - a_a1x1 demo_exc)) /\
    stick_angle demo_exc rest_state
    = Ok (Num (3 * PI - a_12c demo_exc - raw3 - a_d23 demo_exc)) /\
    bucket_angle demo_exc rest_state
    = Ok (Num (Spec.bucket_two_stage demo_exc raw4)) /\
    (bm + r_cyl1 demo_exc) ^ 2
    = (r_o1b demo_exc) ^ 2 + (r_o1a demo_exc) ^ 2
      - 2 * r_o1b demo_exc * r_o1a demo_exc * cos raw2 /\
    (sk + r_cyl2 demo_exc) ^ 2
    = (r_o2c demo_exc) ^ 2 + (r_o2d demo_exc) ^ 2
      - 2 * r_o2c demo_exc * r_o2d demo_exc * cos raw3 /\
    (bk + r_cyl3 demo_exc) ^ 2
    = (r_ef demo_exc) ^ 2 + (r_fh demo_exc) ^ 2
      - 2 * r_ef demo_exc * r_fh demo_exc * cos raw4 /\
    0 <= raw2 <= PI /\ 0 <= raw3 <= PI /\ 0 <= raw4 <= PI.
Proof.
  exact (angle_recovery demo_rest_valid).
Defined.

(** C5.  For every valid state the bucket angle t4 that the solver computes
    is obtained in two stages: the enclosed angle a_efh by the inverse law
    of cosines; the diagonal r_o3h by the direct law of cosines from the
    angle a_hf3 = pi - a_dfe - a_efh; the two angles a_f3h and a_h3g that
    the diagonal subtends by two further inverse laws of cosines; and
    t4 = 3 pi - a_f3h - a_h3g - a_g34 - a_23d. *)
Theorem bucket_two_stage_solve (exc : ExcTable) (state : list R) :
  valid exc state ->
  exists bk a_efh a_hf3 r_o3h a_f3h a_h3g t1 t2 t3 : R,
    nth_error state 2 = Some bk /\
    a_efh = Spec.cos_rule_angle (r_ef exc) (r_fh exc) (bk + r_cyl3 exc) /\
    a_hf3 = PI - a_dfe exc - a_efh /\
    r_o3h = Spec.cos_rule_side (r_o3f exc) (r_fh exc) a_hf3 /\
    r_o3h ^ 2
    = (r_o3f exc) ^ 2 + (r_fh exc) ^ 2
      - 2 * r_o3f exc * r_fh exc * cos a_hf3 /\
    a_f3h = Spec.cos_rule_angle r_o3h (r_o3f exc) (r_fh exc) /\
    a_h3g = Spec.cos_rule_angle r_o3h (r_o3g exc) (r_gh exc) /\
    (r_fh exc) ^ 2
    = r_o3h ^ 2 + (r_o3f exc) ^ 2 - 2 * r_o3h * r_o3f exc * cos a_f3h /\
    (r_gh exc) ^ 2
    = r_o3h ^ 2 + (r_o3g exc) ^ 2 - 2 * r_o3h * r_o3g exc * cos a_h3g /\
    joint_angles exc state
    = Ok (Num t1, Num t2, Num t3,
          Num (3 * PI - a_f3h - a_h3g - a_g34 exc - a_23d exc)) /\
    bucket_angle exc state
    = Ok (Num (3 * PI - a_f3h - a_h3g - a_g34 exc - a_23d exc)).
Proof.
  intros V.
  destruct (valid_angles V) as (bm & sk & bk & sw & _ & _ & H2 & _ & E).
  destruct (valid_elim V) as (bm' & sk' & bk' & sw' & _ & _ & H2' & _ & K).
  rewrite H2 in H2'. injection H2' as <-.
  cbv zeta in K.
  destruct K as (_ & _ & _ & _ & R4 & R5 & _ & _ & _ & N4 & N5).
  pose proof (@joint_angles_parts _ _ _ _ _ _ E) as (_ & _ & _ & E4).
  do 9 eexists.
  split; [exact H2|]. do 3 (split; [reflexivity|]).
  split; [apply cos_rule_side_sqr|]. do 2 (split; [reflexivity|]).
  split; [exact (proj1 (@cos_rule_angle_encloses _ _ _ N4 R4))|].
  split; [exact (proj1 (@cos_rule_angle_encloses _ _ _ N5 R5))|].
  split; [exact E | exact E4].
Qed.

Lemma bucket_two_stage_solve_witness :
  exists bk a_efh a_hf3 r_o3h a_f3h a_h3g t1 t2 t3 : R,
    nth_error rest_state 2 = Some bk /\
    a_efh = Spec.cos_rule_angle (r_ef demo_exc) (r_fh demo_exc)
                                (bk + r_cyl3 demo_exc) /\
    a_hf3 = PI - a_dfe demo_exc - a_efh /\
    r_o3h = Spec.cos_rule_side (r_o3f demo_exc) (r_fh demo_exc) a_hf3 /\
    r_o3h ^ 2
    = (r_o3f demo_exc) ^ 2 + (r_fh demo_exc) ^ 2
      - 2 * r_o3f demo_exc * r_fh demo_exc * cos a_hf3 /\
    a_f3h = Spec.cos_rule_angle r_o3h (r_o3f demo_exc) (r_fh demo_exc) /\
    a_h3g = Spec.cos_rule_angle r_o3h (r_o3g demo_exc) (r_gh demo_exc) /\
    (r_fh demo_exc) ^ 2
    = r_o3h ^ 2 + (r_o3f demo_exc) ^ 2
      - 2 * r_o3h * r_o3f demo_exc * cos a_f3h /\
    (r_gh demo_exc) ^ 2
    = r_o3h ^ 2 + (r_o3g demo_exc) ^ 2
      - 2 * r_o3h * r_o3g demo_exc * cos a_h3g /\
    joint_angles demo_exc rest_state
    = Ok (Num t1, Num t2, Num t3,
          Num (3 * PI - a_f3h - a_h3g - a_g34 demo_exc - a_23d demo_exc)) /\
    bucket_angle demo_exc rest_state
    = Ok (Num (3 * PI - a_f3h - a_h3g - a_g34 demo_exc - a_23d demo_exc)).
Proof.
  exact (bucket_two_stage_solve demo_rest_valid).
Defined.

(** ** Claim C6: the chain and its segment lengths *)

(** C6.  For every valid actuator state, with link lengths and ground offset
    that are not negative, the points are reals and the drawn lines form a
    connected chain (each line starts where the previous one ends) whose
    segments have the lengths gnd_offset, a1, a2, a3 and a4, in this
    order. *)
Theorem chain_segment_lengths (exc : ExcTable) (state : list R) (gos : R) :
  valid exc state ->
  0 <= gos -> 0 <= a1 exc -> 0 <= a2 exc -> 0 <= a3 exc -> 0 <= a4 exc ->
  exists (p : Points) (P0 P1 P2 P3 P4 P5 : R3),
    positions exc state gos = Ok p /\
    points_list p = map inj3 [P0; P1; P2; P3; P4; P5] /\
    zipped_lines p
    = [zip (inj3 P0) (inj3 P1); zip (inj3 P1) (inj3 P2);
       zip (inj3 P2) (inj3 P3); zip (inj3 P3) (inj3 P4);
       zip (inj3 P4) (inj3 P5)] /\
    dist P0 P1 = gos /\
    dist P1 P2 = a1 exc /\
    dist P2 P3 = a2 exc /\
    dist P3 P4 = a3 exc /\
    dist P4 P5 = a4 exc.
Proof.
  intros V G A1 A2 A3 A4.
  destruct (valid_positions gos V) as (t1 & t2 & t3 & t4 & _ & _ & P).
  destruct (chain_lengths exc t1 t2 t3 t4 gos)
    as (P0 & P1 & P2 & P3 & P4 & P5 & E & D0 & D1 & D2 & D3 & D4).
  rewrite E in P.
  eexists. exists P0, P1, P2, P3, P4, P5.
  split; [exact P|]. split; [reflexivity|]. split; [reflexivity|].
  rewrite D0, D1, D2, D3, D4.
  repeat split; apply Rabs_pos_eq; assumption.
Qed.

Lemma chain_segment_lengths_witness :
  exists (p : Points) (P0 P1 P2 P3 P4 P5 : R3),
    positions demo_exc rest_state gnd_offset_default = Ok p /\
    points_list p = map inj3 [P0; P1; P2; P3; P4; P5] /\
    zipped_lines p
    = [zip (inj3 P0) (inj3 P1); zip (inj3 P1) (inj3 P2);
       zip (inj3 P2) (inj3 P3); zip (inj3 P3) (inj3 P4);
       zip (inj3 P4) (inj3 P5)] /\
    dist P0 P1 = gnd_offset_default /\
    dist P1 P2 = a1 demo_exc /\
    dist P2 P3 = a2 demo_exc /\
    dist P3 P4 = a3 demo_exc /\
    dist P4 P5 = a4 demo_exc.
Proof.
  apply (@chain_segment_lengths demo_exc rest_state gnd_offset_default
           demo_rest_valid).
  - unfold gnd_offset_default. lra.
  - cbn. lra.
  - cbn. lra.
  - cbn. lra.
  - cbn. lra.
Defined.

(** ** Claims C7 and C9: swing and the separation of the components *)

Section Components.

Variable exc : ExcTable.

Lemma boom_angle_component (bm sk bk sw sk' bk' sw' : R) :
  boom_angle exc [bm; sk; bk; sw] = boom_angle exc [bm; sk'; bk'; sw'].
Proof. reflexivity. Qed.

Lemma stick_angle_component (bm sk bk sw bm' bk' sw' : R) :
  stick_angle exc [bm; sk; bk; sw] = stick_angle exc [bm'; sk; bk'; sw'].
Proof. reflexivity. Qed.

Lemma bucket_angle_component (bm sk bk sw bm' sk' sw' : R) :
  bucket_angle exc [bm; sk; bk; sw] = bucket_angle exc [bm'; sk'; bk; sw'].
Proof. reflexivity. Qed.

Lemma joint_angles_swing (bm sk bk sw sw' : R) :
  joint_angles exc [bm; sk; bk; sw']
  = rmap (set_t1 (Num sw')) (joint_angles exc [bm; sk; bk; sw]).
Proof.
  unfold joint_angles. cbn [getitem nth_error bind].
  rewrite (boom_angle_component bm sk bk sw' sk bk sw).
  rewrite (stick_angle_component bm sk bk sw' bm bk sw).
  rewrite (bucket_angle_component bm sk bk sw' bm sk sw).
  destruct (boom_angle exc [bm; sk; bk; sw]); cbn [bind rmap]; [|reflexivity].
  destruct (stick_angle exc [bm; sk; bk; sw]); cbn [bind rmap]; [|reflexivity].
  destruct (bucket_angle exc [bm; sk; bk; sw]); reflexivity.
Qed.

Lemma rot_z_origin_axis (d z : R) : rot_z d (inj3 (0, 0, z)) = inj3 (0, 0, z).
Proof.
  cbn. f_equal; f_equal; f_equal; ring.
Qed.

Lemma rot_z_swing (h z : npfloat) (sw d : R) :
  rot_z d (h * np_cos (Num sw), h * np_sin (Num sw), z)%fl
  = (h * np_cos (Num (sw + d)), h * np_sin (Num (sw + d)), z)%fl.
Proof.
  destruct h as [r|]; cbn; [|reflexivity].
  rewrite cos_plus, sin_plus. f_equal; f_equal; f_equal; ring.
Qed.

Lemma link_points_swing (t2 t3 t4 : npfloat) (sw d gos : R) :
  link_points exc (Num (sw + d)) t2 t3 t4 gos
  = map_points (rot_z d) (link_points exc (Num sw) t2 t3 t4 gos).
Proof.
  unfold link_points, map_points. cbn [gnd base o1 o2 o3 o4].
  rewrite !rot_z_swing.
  change (Num 0, Num 0, Num 0) with (inj3 (0, 0, 0)).
  change (Num 0, Num 0, Num gos) with (inj3 (0, 0, gos)).
  rewrite !rot_z_origin_axis. reflexivity.
Qed.

End Components.

(** C7.  For every table, every state and every angle d: adding d to the
    swing angle while the three cylinder extensions are kept leaves the
    outcome of the call the same up to the rotation by d about the vertical
    axis through the origin -- every point keeps its z and has its (x, y)
    turned by d; a call that raises still raises the same error. *)
Theorem swing_rotation (exc : ExcTable) (bm sk bk sw d gos : R) :
  positions exc [bm; sk; bk; sw + d] gos
  = rmap (map_points (rot_z d)) (positions exc [bm; sk; bk; sw] gos).
Proof.
  unfold positions.
  rewrite (joint_angles_swing exc bm sk bk sw (sw + d)).
  pose proof (joint_angles_swing exc bm sk bk sw sw) as S.
  destruct (joint_angles exc [bm; sk; bk; sw]) as [[[[t1 t2] t3] t4]|e];
    cbn [rmap bind set_t1] in *; [|reflexivity].
  injection S as ->.
  now rewrite link_points_swing.
Qed.

(** C9.  The boom angle depends on the state through state[0] only, the
    stick angle through state[1] only, the bucket angle through state[2]
    only; two states that differ in the swing angle only get the same t2, t3
    and t4, and the swing angle t1 returned is state[3] whatever the
    extensions. *)
Theorem angles_noninterference (exc : ExcTable)
    (bm sk bk sw bm' sk' bk' sw' : R) :
  boom_angle exc [bm; sk; bk; sw] = boom_angle exc [bm; sk'; bk'; sw'] /\
  stick_angle exc [bm; sk; bk; sw] = stick_angle exc [bm'; sk; bk'; sw'] /\
  bucket_angle exc [bm; sk; bk; sw] = bucket_angle exc [bm'; sk'; bk; sw'] /\
  rmap (fun a => (snd (fst (fst a)), snd (fst a), snd a))
       (joint_angles exc [bm; sk; bk; sw])
  = rmap (fun a => (snd (fst (fst a)), snd (fst a), snd a))
         (joint_angles exc [bm; sk; bk; sw']) /\
  rmap (fun a => fst (fst (fst a))) (joint_angles exc [bm; sk; bk; sw])
  = rmap (fun _ => Num sw) (joint_angles exc [bm; sk; bk; sw]) /\
  rmap (fun a => fst (fst (fst a))) (joint_angles exc [bm'; sk'; bk'; sw])
  = rmap (fun _ => Num sw) (joint_angles exc [bm'; sk'; bk'; sw]).
Proof.
  split; [reflexivity|]. split; [reflexivity|]. split; [reflexivity|].
  split; [|split].
  - rewrite (joint_angles_swing exc bm sk bk sw sw').
    destruct (joint_angles exc [bm; sk; bk; sw]) as [[[[t1 t2] t3] t4]|e];
      reflexivity.
  - rewrite (joint_angles_swing exc bm sk bk sw sw) at 1.
    destruct (joint_angles exc [bm; sk; bk; sw]) as [[[[t1 t2] t3] t4]|e];
      reflexivity.
  - rewrite (joint_angles_swing exc bm' sk' bk' sw sw) at 1.
    destruct (joint_angles exc [bm'; sk'; bk'; sw]) as [[[[t1 t2] t3] t4]|e];
      reflexivity.
Qed.

(** ** Claim C10: ground and base *)

(** A flat boom triangle makes every call raise before anything is drawn. *)
Lemma flat_table_raises (exc : ExcTable) (bm sk bk sw : R)
    (ax : Axes) (lw : option Z) (lk rt : option bool) (gos : option R) :
  r_o1b exc * r_o1a exc = 0 ->
  draw_exc exc ax [bm; sk; bk; sw] lw lk rt gos = Raise ZeroDivisionError.
Proof.
  intros Z0. rewrite draw_exc_render.
  unfold positions, joint_angles, boom_angle.
  cbn [getitem nth_error bind].
  rewrite (boom_arg_some exc [bm; sk; bk; sw] (bm := bm)) by reflexivity.
  rewrite py_div_zero by lra. reflexivity.
Qed.

(** C10.  For every table and every actuator state, valid or not: the
    first point the call computes is (0, 0, 0) and the second
    (0, 0, gnd_offset), where gnd_offset is the keyword argument of the
    call, 17.1 when left out, and no entry of the table; neither depends on
    a component of the state.  The first line drawn joins these two points
    and the second starts at the base. *)
Theorem ground_and_base_constant (exc : ExcTable) (state : list R)
    (ax : Axes) (lw : option Z) (lk rt : option bool) (gos : option R)
    (p : Points) :
  positions exc state (or_default gnd_offset_default gos) = Ok p ->
  gnd p = inj3 (0, 0, 0) /\
  base p = inj3 (0, 0, match gos with Some g => g | None => 171 / 10 end) /\
  exists ax' l0 l1 rest,
    draw_exc exc ax state lw lk rt gos = Ok ax' /\
    drawn_since ax ax' = l0 :: l1 :: rest /\
    line_start (fst l0) = gnd p /\ line_end (fst l0) = base p /\
    line_start (fst l1) = base p.
Proof.
  intros P.
  assert (G : gnd p = inj3 (0, 0, 0) /\
              base p = inj3 (0, 0, or_default gnd_offset_default gos)).
  { unfold positions in P.
    destruct (joint_angles exc state) as [[[[t1 t2] t3] t4]|e];
      [|discriminate].
    cbn [bind] in P. injection P as <-. apply link_points_gnd_base. }
  destruct G as (G & B).
  split; [exact G|]. split; [rewrite B; destruct gos; reflexivity|].
  do 4 eexists. split.
  { rewrite draw_exc_render, P. reflexivity. }
  rewrite drawn_since_render.
  split; [reflexivity|]. cbn [fst].
  rewrite !line_start_zip, line_end_zip. auto.
Qed.

Lemma ground_and_base_constant_witness :
  exists p,
    positions demo_exc overextended_state (or_default gnd_offset_default None)
    = Ok p /\
    gnd p = inj3 (0, 0, 0) /\
    base p = inj3 (0, 0, 171 / 10) /\
    exists ax' l0 l1 rest,
      draw_exc demo_exc empty_axes overextended_state None None None None
      = Ok ax' /\
      drawn_since empty_axes ax' = l0 :: l1 :: rest /\
      line_start (fst l0) = gnd p /\ line_end (fst l0) = base p /\
      line_start (fst l1) = base p.
Proof.
  destruct demo_overextended_args as (q2 & q3 & q4 & q5 & E).
  destruct (args_positions demo_exc overextended_state
              (or_default gnd_offset_default None) E) as (p & P & _).
  exists p. split; [exact P|].
  exact (@ground_and_base_constant demo_exc overextended_state empty_axes
           None None None None p P).
Defined.

(** ** Further properties of [draw_exc]: errors *)

Lemma py_div_raises (x y : npfloat) (e : exn) :
  py_div x y = Raise e -> e = ZeroDivisionError.
Proof.
  unfold py_div. destruct y as [b|]; [|discriminate].
  destruct (Req_dec_T b 0); [now intros [= <-]|].
  destruct x; discriminate.
Qed.

Lemma diagonal_total (exc : ExcTable) (a : npfloat) :
  exists r, diagonal exc a = Ok r.
Proof.
  destruct a as [x|].
  - rewrite diagonal_num. eauto.
  - rewrite diagonal_nan. eauto.
Qed.

Section Raises.

Variable exc : ExcTable.

Lemma boom_angle_raises (bm : R) (rest : list R) (e : exn) :
  boom_angle exc (bm :: rest) = Raise e -> e = ZeroDivisionError.
Proof.
  unfold boom_angle, boom_arg. cbn [getitem nth_error bind].
  destruct (py_div _ _) eqn:D; cbn [bind]; [discriminate|].
  intros [= <-]. exact (py_div_raises _ _ D).
Qed.

Lemma stick_angle_raises (bm sk : R) (rest : list R) (e : exn) :
  stick_angle exc (bm :: sk :: rest) = Raise e -> e = ZeroDivisionError.
Proof.
  unfold stick_angle, stick_arg. cbn [getitem nth_error bind].
  destruct (py_div _ _) eqn:D; cbn [bind]; [discriminate|].
  intros [= <-]. exact (py_div_raises _ _ D).
Qed.

Lemma bucket_angle_raises (bm sk bk : R) (rest : list R) (e : exn) :
  bucket_angle exc (bm :: sk :: bk :: rest) = Raise e ->
  e = ZeroDivisionError.
Proof.
  unfold bucket_angle, efh_arg. cbn [getitem nth_error bind].
  destruct (py_div _ _) as [q|e0] eqn:D; cbn [bind].
  2:{ intros [= <-]. exact (py_div_raises _ _ D). }
  destruct (diagonal_total exc (np_arccos q)) as (r & ->). cbn [bind].
  unfold f3h_arg, h3g_arg.
  match goal with
  | |- bind (py_div ?a ?b) _ = _ -> _ =>
      destruct (py_div a b) as [q4|e4] eqn:D4; cbn [bind]
  end.
  2:{ intros [= <-]. exact (py_div_raises _ _ D4). }
  match goal with
  | |- bind (py_div ?a ?b) _ = _ -> _ =>
      destruct (py_div a b) as [q5|e5] eqn:D5; cbn [bind]
  end; [discriminate|].
  intros [= <-]. exact (py_div_raises _ _ D5).
Qed.

(** The only errors of the angle computation: a state that is too short, or
    a zero divisor on a state that is long enough. *)
Lemma joint_angles_raises (state : list R) (e : exn) :
  joint_angles exc state = Raise e ->
  (e = IndexError /\ (length state < 4)%nat) \/
  (e = ZeroDivisionError /\ (4 <= length state)%nat).
Proof.
  destruct state as [|bm [|sk [|bk [|sw rest]]]];
    try (cbn; intros [= <-]; left; split; [reflexivity | lia]).
  intros H. right. split; [|cbn; lia].
  unfold joint_angles in H. cbn [getitem nth_error bind] in H.
  destruct (boom_angle exc _) eqn:B; cbn [bind] in H.
  2:{ injection H as <-. exact (boom_angle_raises _ _ B). }
  destruct (stick_angle exc _) eqn:S; cbn [bind] in H.
  2:{ injection H as <-. exact (stick_angle_raises _ _ _ S). }
  destruct (bucket_angle exc _) eqn:K; cbn [bind] in H; [discriminate|].
  injection H as <-. exact (bucket_angle_raises _ _ _ _ K).
Qed.

Lemma joint_angles_short (state : list R) :
  (length state < 4)%nat -> joint_angles exc state = Raise IndexError.
Proof.
  intros L. unfold joint_angles, getitem.
  assert (nth_error state 3 = None) as -> by (apply nth_error_None; lia).
  reflexivity.
Qed.

Lemma draw_exc_raises (ax : Axes) (state : list R) (lw : option Z)
    (lk rt : option bool) (gos : option R) (e : exn) :
  draw_exc exc ax state lw lk rt gos = Raise e ->
  joint_angles exc state = Raise e.
Proof.
  rewrite draw_exc_render. unfold positions.
  destruct (joint_angles exc state) as [[[[t1 t2] t3] t4]|e0];
    cbn [bind rmap]; [discriminate | now intros [= <-]].
Qed.

End Raises.

(** X1.  [draw_exc] raises IndexError exactly when the state has fewer than
    four components; on a longer state the components after the fourth are
    ignored. *)
Theorem draw_exc_index_error (exc : ExcTable) (ax : Axes) (state : list R)
    (lw : option Z) (lk rt : option bool) (gos : option R)
    (bm sk bk sw : R) (rest : list R) :
  (draw_exc exc ax state lw lk rt gos = Raise IndexError
   <-> (length state < 4)%nat) /\
  draw_exc exc ax (bm :: sk :: bk :: sw :: rest) lw lk rt gos
  = draw_exc exc ax [bm; sk; bk; sw] lw lk rt gos.
Proof.
  split; [|reflexivity]. split.
  - intros H. apply draw_exc_raises in H.
    apply joint_angles_raises in H.
    destruct H as [[_ L]|[C _]]; [exact L | discriminate].
  - intros L. rewrite draw_exc_render. unfold positions.
    now rewrite (joint_angles_short exc state L).
Qed.

(** ** Further properties of [draw_exc]: the arguments and NaN *)

Lemma not_finite_nan_x (y z : npfloat) : ~ finite (NaN, y, z).
Proof. intros ([[a b] c] & H). discriminate. Qed.

Lemma finite_inj3 (P : R3) : finite (inj3 P).
Proof. now exists P. Qed.

Lemma np_arccos_cases (q : npfloat) :
  (arg_ok q = true /\ exists t, np_arccos q = Num t) \/
  (arg_ok q = false /\ np_arccos q = NaN).
Proof.
  destruct (arg_ok q) eqn:A.
  - left. split; [reflexivity|].
    apply arg_ok_true in A as (a & -> & H).
    rewrite np_arccos_in by assumption. eauto.
  - right. split; [reflexivity | now apply np_arccos_out].
Qed.

(** X4.  How far a NaN angle reaches: ground, base and the end of the first
    link are always numbers; the end of the boom is a number exactly when
    the boom argument is in the domain, the end of the stick when the boom
    and stick arguments are, the end of the bucket when all five are. *)
Theorem nan_reach (exc : ExcTable) (state : list R)
    (q1 q2 q3 q4 q5 : npfloat) (gos : R) :
  arccos_args exc state = Ok (q1, q2, q3, q4, q5) ->
  exists p,
    positions exc state gos = Ok p /\
    finite (gnd p) /\ finite (base p) /\ finite (o1 p) /\
    (finite (o2 p) <-> arg_ok q1 = true) /\
    (finite (o3 p) <-> arg_ok q1 = true /\ arg_ok q2 = true) /\
    (finite (o4 p) <-> all_ok (q1, q2, q3, q4, q5) = true).
Proof.
  intros E.
  assert (exists sw, getitem state 3 = Ok (Num sw)) as (sw & G).
  { unfold arccos_args in E.
    destruct (getitem state 3) as [t1|] eqn:G; [|discriminate].
    apply getitem_ok in G as (sw & _ & ->). eauto. }
  pose proof (@args_nan_chain exc _ _ _ _ _ _ E) as Chain.
  unfold positions. rewrite joint_angles_args, E. cbn [bind]. rewrite G.
  cbn [bind]. eexists. split; [reflexivity|].
  assert (Q43 : arg_ok q4 = true -> arg_ok q3 = true).
  { intros A4. destruct (arg_ok q3) eqn:A3; [reflexivity|].
    rewrite (Chain eq_refl) in A4. discriminate. }
  cbn [all_ok].
  destruct (np_arccos_cases q1) as [(A1 & t & ->)|(A1 & ->)];
    destruct (np_arccos_cases q2) as [(A2 & u & ->)|(A2 & ->)];
    destruct (np_arccos_cases q4) as [(A4 & v & ->)|(A4 & ->)];
    destruct (np_arccos_cases q5) as [(A5 & w & ->)|(A5 & ->)];
    rewrite A1, A2, A4, A5; try rewrite (Q43 A4);
    cbn [link_points gnd base o1 o2 o3 o4 fadd fsub fmul lift1 lift2 np_cos
         np_sin andb];
    (split; [apply (finite_inj3 (0, 0, 0))|]);
    (split; [apply (finite_inj3 (0, 0, gos))|]);
    (split; [apply (finite_inj3 (_, _, _))|]);
    repeat split;
    try (intros _; apply (finite_inj3 (_, _, _)));
    try (intros F; now apply not_finite_nan_x in F);
    try (intros [? ?]; discriminate);
    try discriminate;
    try (destruct (arg_ok q3); discriminate);
    try (exfalso; eapply not_finite_nan_x; eassumption).
Qed.

Lemma nan_reach_witness :
  exists p,
    positions demo_exc rest_state gnd_offset_default = Ok p /\
    finite (gnd p) /\ finite (base p) /\ finite (o1 p) /\
    (finite (o2 p) <-> arg_ok (Num 0) = true) /\
    (finite (o3 p) <-> arg_ok (Num 0) = true /\ arg_ok (Num 0) = true) /\
    (finite (o4 p)
     <-> all_ok (Num 0, Num 0, Num 0, Num (3 / 5), Num (3 / 5)) = true).
Proof.
  exact (@nan_reach demo_exc rest_state _ _ _ _ _ gnd_offset_default
           demo_rest_args).
Defined.

(** ** Further properties of [draw_exc]: geometry of the points *)

(** X5.  On a valid state the arm is planar: the six points lie in the
    vertical plane through the z axis whose azimuth is the swing angle. *)
Theorem arm_planar (exc : ExcTable) (state : list R) (gos : R) :
  valid exc state ->
  exists t1 p,
    nth_error state 3 = Some t1 /\
    positions exc state gos = Ok p /\
    Forall (fun q => exists x y z,
                q = inj3 (x, y, z) /\ x * sin t1 = y * cos t1)
           (points_list p).
Proof.
  intros V.
  destruct (valid_positions gos V) as (t1 & t2 & t3 & t4 & H3 & _ & P).
  exists t1. eexists. split; [exact H3|]. split; [exact P|].
  rewrite link_points_num. unfold points_list. cbn [gnd base o1 o2 o3 o4].
  repeat constructor; do 3 eexists; (split; [reflexivity | ring]).
Qed.

Lemma arm_planar_witness :
  exists t1 p,
    nth_error rest_state 3 = Some t1 /\
    positions demo_exc rest_state gnd_offset_default = Ok p /\
    Forall (fun q => exists x y z,
                q = inj3 (x, y, z) /\ x * sin t1 = y * cos t1)
           (points_list p).
Proof.
  exact (arm_planar gnd_offset_default demo_rest_valid).
Defined.

Lemma scaled_bound (a c : R) : 0 <= a -> -1 <= c <= 1 -> - a <= a * c <= a.
Proof. intros Ha Hc. split; nra. Qed.

Lemma horizontal_bound (h T t1 : R) :
  - T <= h <= T -> (h * cos t1) ^ 2 + (h * sin t1) ^ 2 <= T ^ 2.
Proof.
  intros H.
  replace ((h * cos t1) ^ 2 + (h * sin t1) ^ 2)
    with (h ^ 2 * (Rsqr (sin t1) + Rsqr (cos t1))) by (unfold Rsqr; ring).
  rewrite sin2_cos2. nra.
Qed.

(** X6.  On a valid state with link lengths that are not negative, the base
    and the four link ends stay within the horizontal distance
    a1 + a2 + a3 + a4 of the swing axis and within a2 + a3 + a4 of the
    height of the base. *)
Theorem reach_bound (exc : ExcTable) (state : list R) (gos : R) :
  valid exc state ->
  0 <= a1 exc -> 0 <= a2 exc -> 0 <= a3 exc -> 0 <= a4 exc ->
  exists p,
    positions exc state gos = Ok p /\
    Forall (fun q => exists x y z,
                q = inj3 (x, y, z) /\
                x ^ 2 + y ^ 2 <= (a1 exc + a2 exc + a3 exc + a4 exc) ^ 2 /\
                Rabs (z - gos) <= a2 exc + a3 exc + a4 exc)
           [base p; o1 p; o2 p; o3 p; o4 p].
Proof.
  intros V A1 A2 A3 A4.
  destruct (valid_positions gos V) as (t1 & t2 & t3 & t4 & _ & _ & P).
  eexists. split; [exact P|].
  rewrite link_points_num. cbn [base o1 o2 o3 o4].
  pose proof (scaled_bound A2 (COS_bound t2)) as C2.
  pose proof (scaled_bound A3 (COS_bound (t2 + t3))) as C3.
  pose proof (scaled_bound A4 (COS_bound (t2 + t3 + t4))) as C4.
  pose proof (scaled_bound A2 (SIN_bound t2)) as S2.
  pose proof (scaled_bound A3 (SIN_bound (t2 + t3))) as S3.
  pose proof (scaled_bound A4 (SIN_bound (t2 + t3 + t4))) as S4.
  repeat constructor; do 3 eexists;
    (split; [reflexivity|]);
    (split; [try apply horizontal_bound; try nra; lra
            | apply Rabs_le; lra]).
Qed.

Lemma reach_bound_witness :
  exists p,
    positions demo_exc rest_state gnd_offset_default = Ok p /\
    Forall (fun q => exists x y z,
                q = inj3 (x, y, z) /\
                x ^ 2 + y ^ 2
                <= (a1 demo_exc + a2 demo_exc + a3 demo_exc + a4 demo_exc) ^ 2
                /\ Rabs (z - gnd_offset_default)
                   <= a2 demo_exc + a3 demo_exc + a4 demo_exc)
           [base p; o1 p; o2 p; o3 p; o4 p].
Proof.
  apply (@reach_bound demo_exc rest_state gnd_offset_default demo_rest_valid);
    cbn; lra.
Defined.

(** X7.  A full turn of the swing changes nothing: the outcome at swing
    sw + 2 pi is the outcome at sw, for every table and state. *)
Theorem swing_full_turn (exc : ExcTable) (bm sk bk sw gos : R) :
  positions exc [bm; sk; bk; sw + 2 * PI] gos
  = positions exc [bm; sk; bk; sw] gos.
Proof.
  unfold positions.
  rewrite (joint_angles_swing exc bm sk bk sw (sw + 2 * PI)).
  pose proof (joint_angles_swing exc bm sk bk sw sw) as S.
  destruct (joint_angles exc [bm; sk; bk; sw]) as [[[[t1 t2] t3] t4]|e];
    cbn [rmap bind set_t1] in *; [|reflexivity].
  injection S as ->.
  unfold link_points. cbn [np_cos np_sin lift1].
  assert (cos (sw + 2 * PI) = cos sw) as ->.
  { rewrite cos_plus, cos_2PI, sin_2PI. ring. }
  assert (sin (sw + 2 * PI) = sin sw) as ->.
  { rewrite sin_plus, cos_2PI, sin_2PI. ring. }
  reflexivity.
Qed.

(** ** Further properties of [draw_exc]: the joint angles *)

(** X9.  The travel of the joints: on a valid state the boom angle lies
    within pi above -a_b12 - a_a1x1, the stick angle within pi below
    3 pi - a_12c - a_d23, and the bucket angle within 2 pi below
    3 pi - a_g34 - a_23d. *)
Theorem joint_ranges (exc : ExcTable) (state : list R) :
  valid exc state ->
  exists t1 t2 t3 t4 : R,
    joint_angles exc state = Ok (Num t1, Num t2, Num t3, Num t4) /\
    - a_b12 exc - a_a1x1 exc <= t2 <= PI - a_b12 exc - a_a1x1 exc /\
    2 * PI - a_12c exc - a_d23 exc <= t3 <= 3 * PI - a_12c exc - a_d23 exc /\
    PI - a_g34 exc - a_23d exc <= t4 <= 3 * PI - a_g34 exc - a_23d exc.
Proof.
  intros V.
  destruct (valid_angles V) as (bm & sk & bk & sw & _ & _ & _ & _ & E).
  do 4 eexists. split; [exact E|].
  unfold Spec.bucket_two_stage, Spec.cos_rule_angle.
  repeat match goal with
         | |- context [acos ?x] =>
             let a := fresh "ang" in
             let B := fresh "B" in
             pose proof (acos_bound x) as B;
             set (a := acos x) in *; clearbody a
         end.
  repeat split; lra.
Qed.

Lemma joint_ranges_witness :
  exists t1 t2 t3 t4 : R,
    joint_angles demo_exc rest_state = Ok (Num t1, Num t2, Num t3, Num t4) /\
    - a_b12 demo_exc - a_a1x1 demo_exc <= t2
    <= PI - a_b12 demo_exc - a_a1x1 demo_exc /\
    2 * PI - a_12c demo_exc - a_d23 demo_exc <= t3
    <= 3 * PI - a_12c demo_exc - a_d23 demo_exc /\
    PI - a_g34 demo_exc - a_23d demo_exc <= t4
    <= 3 * PI - a_g34 demo_exc - a_23d demo_exc.
Proof.
  exact (joint_ranges demo_rest_valid).
Defined.







(** ** [orient_plot] and its composition with [draw_exc] *)

(** X11.  With lock_axes=False and rotate=False, drawing the arm and
    orienting the plot commute: both orders give the same axis, or the same
    error. *)
Theorem orient_plot_commutes (exc : ExcTable) (ax : Axes) (state : list R)
    (lw : option Z) (gos : option R) :
  rmap orient_plot (draw_exc exc ax state lw (Some false) (Some false) gos)
  = draw_exc exc (orient_plot ax) state lw (Some false) (Some false) gos.
Proof.
  rewrite !draw_exc_render.
  destruct (positions exc state _) as [p|e]; reflexivity.
Qed.

(** X12.  [orient_plot] keeps the lines and is idempotent; the last call
    wins the frame: after [draw_exc] then [orient_plot] the limits are
    [-20, 80], [0, 80], [0, 50] and the view (-142, 14) whatever the flags
    of [draw_exc], while a [draw_exc] with the default flags after
    [orient_plot] puts the x limits back to [0, 80] and the view to
    (-137, 35). *)
Theorem orient_plot_last_call_wins (exc : ExcTable) (ax : Axes)
    (state : list R) (lw : option Z) (lk rt : option bool) (gos : option R) :
  lines (orient_plot ax) = lines ax /\
  orient_plot (orient_plot ax) = orient_plot ax /\
  rmap (fun a => frame (orient_plot a)) (draw_exc exc ax state lw lk rt gos)
  = rmap (fun _ => (Some (-20, 80)%Z, Some (0, 80)%Z, Some (0, 50)%Z,
                    Some (-142, 14)%Z))
         (draw_exc exc ax state lw lk rt gos) /\
  rmap frame (draw_exc exc (orient_plot ax) state lw None None gos)
  = rmap (fun _ => (Some (0, 80)%Z, Some (0, 80)%Z, Some (0, 50)%Z,
                    Some (-137, 35)%Z))
         (draw_exc exc (orient_plot ax) state lw None None gos).
Proof.
  split; [reflexivity|]. split; [reflexivity|].
  rewrite !draw_exc_render.
  destruct (positions exc state _) as [p|e]; split; reflexivity.
Qed.

(** ** [get_color_cycle] *)

Module ColorCycle.
Import String.
Local Open Scope string_scope.

(** X13.  [get_color_cycle] accepts the indices 0 and -1 only, which both
    give a fresh cycle over the six colours of the single colour set; every
    other index raises IndexError. *)
Theorem get_color_cycle_index (ind : Z) :
  get_color_cycle ind
  = if ((ind =? 0) || (ind =? -1))%Z
    then Return (cycle ["navy"; "c"; "cornflowerblue"; "gold"; "darkorange";
                        "r"])
    else Throw (Exn IndexError).
Proof.
  unfold get_color_cycle, py_index.
  cbn [Palette.csets List.length Z.of_nat Pos.of_succ_nat].
  destruct (Z.eqb_spec ind 0) as [->|N0]; [reflexivity|].
  destruct (Z.eqb_spec ind (-1)) as [->|N1]; [reflexivity|].
  cbn [orb].
  destruct (Z.ltb_spec ind 0) as [L|L].
  - destruct (Z.ltb_spec (ind + 1) 0) as [L'|L']; [reflexivity | lia].
  - destruct (Z.ltb_spec ind 0) as [L'|L']; [lia|]. cbn [orb].
    destruct (Z.leb_spec 1 ind) as [L''|L'']; [reflexivity | lia].
Qed.

End ColorCycle.

(** ** The numpy operations of the scatter plots *)

Lemma insert_unique_In (x y : Z) (l : list Z) :
  In y (insert_unique x l) <-> y = x \/ In y l.
Proof.
  induction l as [|z l IH]; cbn [insert_unique].
  - cbn. intuition.
  - destruct (Z.ltb_spec x z); [cbn; intuition|].
    destruct (Z.eqb_spec x z) as [->|N]; [cbn; intuition|].
    cbn [In]. rewrite IH. intuition.
Qed.

Lemma np_unique_In (y : Z) (labels : list Z) :
  In y (np_unique labels) <-> In y labels.
Proof.
  induction labels as [|x labels IH]; [reflexivity|].
  cbn [np_unique fold_right]. fold (np_unique labels).
  rewrite insert_unique_In, IH. cbn. intuition.
Qed.





Lemma select_Forall {A : Type} (P : A -> Prop) (mask : list bool)
    (rows : list A) :
  Forall P rows -> Forall P (select mask rows).
Proof.
  intros F. revert mask. induction F as [|r rows Hr F IH]; intros [|b mask];
    try constructor.
  cbn. destruct b; [constructor; auto | auto].
Qed.

Lemma select_In_nonempty {A : Type} (labels : list Z) (rows : list A) (i : Z) :
  In i labels -> length labels = length rows ->
  select (mask_eq labels i) rows <> [].
Proof.
  revert rows. induction labels as [|l labels IH]; intros rows Hin L.
  - destruct Hin.
  - destruct rows as [|r rows]; [discriminate|].
    cbn. destruct (Z.eqb_spec l i) as [E|N]; [discriminate|].
    destruct Hin as [->|Hin]; [contradiction|].
    apply IH; [exact Hin | now injection L].
Qed.

Lemma column_ok (rows : list (list R)) (j : nat) :
  Forall (fun r => (j < length r)%nat) rows ->
  column rows j = Return (map (fun r => nth j r 0) rows).
Proof.
  induction 1 as [|r rows Hr F IH]; [reflexivity|].
  cbn [column map]. rewrite (nth_error_nth' r 0 Hr), IH. reflexivity.
Qed.

Lemma column_error (rows : list (list R)) (j : nat) (e : error) :
  column rows j = Throw e -> e = Exn IndexError.
Proof.
  induction rows as [|r rows IH]; [discriminate|].
  cbn [column]. destruct (nth_error r j); [|now intros [= <-]].
  destruct (column rows j); cbn [obind]; [discriminate|].
  intros [= <-]. now apply IH.
Qed.

Lemma column_short (r : list R) (rows : list (list R)) (j : nat) :
  (length r <= j)%nat -> column (r :: rows) j = Throw (Exn IndexError).
Proof.
  intros L. cbn [column].
  assert (nth_error r j = None) as -> by (now apply nth_error_None).
  reflexivity.
Qed.



Lemma mask_eq_length (labels : list Z) (i : Z) :
  length (mask_eq labels i) = length labels.
Proof. apply length_map. Qed.

(** One distinct label: its three columns, on an array with at least three
    columns and as many rows as labels. *)
Lemma mask_column_ok (states : list (list R)) (labels : list Z) (i : Z)
    (j : nat) :
  Forall (fun r => (3 <= length r)%nat) states ->
  length labels = length states -> (j < 3)%nat ->
  mask_column states (mask_eq labels i) j
  = Return (map (fun r => nth j r 0) (rows_of states labels i)).
Proof.
  intros F L Hj. unfold mask_column.
  rewrite mask_eq_length, L, Nat.eqb_refl.
  apply column_ok. apply select_Forall.
  eapply Forall_impl; [|exact F]. cbn. intros; lia.
Qed.

(** ** [plot_3d_labeled_clusters] *)









Lemma np_unique_nonempty (labels : list Z) :
  labels <> [] -> exists i us, np_unique labels = i :: us /\ In i labels.
Proof.
  intros N. destruct (np_unique labels) as [|i us] eqn:E.
  - destruct labels as [|l labels]; [contradiction|].
    assert (In l (np_unique (l :: labels))) as H
        by (apply np_unique_In; now left).
    rewrite E in H. destruct H.
  - exists i, us. split; [reflexivity|].
    apply np_unique_In. rewrite E. now left.
Qed.

Lemma mask_column_error (states : list (list R)) (mask : list bool) (j : nat)
    (e : error) :
  mask_column states mask j = Throw e -> e = Exn IndexError.
Proof.
  unfold mask_column. destruct (length mask =? length states)%nat.
  - apply column_error.
  - now intros [= <-].
Qed.

(** X16.  A label array that is not empty and whose length is not the number
    of rows raises IndexError; an empty label array is not checked against
    the rows at all: the call returns an empty figure with its title and
    leaves the cycle as it was. *)
Theorem labeled_clusters_length_mismatch (states : list (list R))
    (labels : list Z) (t : String.string) (colors : Cycle) :
  labels <> [] -> length labels <> length states ->
  plot_3d_labeled_clusters states labels t colors = Throw (Exn IndexError) /\
  plot_3d_labeled_clusters states [] t colors
  = Return ({| collections := []; title := t |}, colors).
Proof.
  intros N L. split; [|reflexivity].
  destruct (@np_unique_nonempty labels N) as (i & us & E & _).
  unfold plot_3d_labeled_clusters. rewrite E. cbn [scatter_clusters].
  unfold mask_column at 1. rewrite mask_eq_length.
  apply Nat.eqb_neq in L. rewrite L. reflexivity.
Qed.

Lemma labeled_clusters_length_mismatch_witness :
  plot_3d_labeled_clusters [[1; 2; 3]] [0; 1]%Z Palette.no_title
    (cycle (nth 0 Palette.csets []))
  = Throw (Exn IndexError) /\
  plot_3d_labeled_clusters [[1; 2; 3]] [] Palette.no_title
    (cycle (nth 0 Palette.csets []))
  = Return ({| collections := []; title := Palette.no_title |},
            cycle (nth 0 Palette.csets [])).
Proof.
  apply (@labeled_clusters_length_mismatch [[1; 2; 3]] [0; 1]%Z
           Palette.no_title (cycle (nth 0 Palette.csets []))).
  - discriminate.
  - cbn. lia.
Defined.

(** X17.  An array with fewer than three columns raises IndexError as soon
    as there is a label (with as many labels as rows). *)
Theorem labeled_clusters_few_columns (states : list (list R))
    (labels : list Z) (t : String.string) (colors : Cycle) :
  labels <> [] -> length labels = length states ->
  Forall (fun r => (length r < 3)%nat) states ->
  plot_3d_labeled_clusters states labels t colors = Throw (Exn IndexError).
Proof.
  intros N L F.
  destruct (@np_unique_nonempty labels N) as (i & us & E & Hi).
  unfold plot_3d_labeled_clusters. rewrite E. cbn [scatter_clusters].
  assert (C2 : mask_column states (mask_eq labels i) 2
               = Throw (Exn IndexError)).
  { unfold mask_column. rewrite mask_eq_length, L, Nat.eqb_refl.
    pose proof (@select_In_nonempty _ labels states i Hi L) as NE.
    pose proof (@select_Forall _ _ (mask_eq labels i) states F) as FS.
    destruct (select (mask_eq labels i) states) as [|r rows];
      [contradiction|].
    apply column_short. inversion FS; subst. lia. }
  destruct (mask_column states (mask_eq labels i) 0) as [xs|e] eqn:C0;
    cbn [obind].
  2:{ now rewrite (@mask_column_error _ _ _ _ C0). }
  destruct (mask_column states (mask_eq labels i) 1) as [ys|e] eqn:C1;
    cbn [obind].
  2:{ now rewrite (@mask_column_error _ _ _ _ C1). }
  rewrite C2. reflexivity.
Qed.

Lemma labeled_clusters_few_columns_witness :
  plot_3d_labeled_clusters [[1; 2]; [3; 4]] [0; 1]%Z Palette.no_title
    (cycle (nth 0 Palette.csets []))
  = Throw (Exn IndexError).
Proof.
  apply (@labeled_clusters_few_columns [[1; 2]; [3; 4]] [0; 1]%Z
           Palette.no_title (cycle (nth 0 Palette.csets []))).
  - discriminate.
  - reflexivity.
  - repeat constructor.
Defined.

(** X18.  With an empty colour cycle, and otherwise well-formed arguments
    with at least one label, the call raises StopIteration. *)
Theorem labeled_clusters_empty_cycle (states : list (list R))
    (labels : list Z) (t : String.string) (colors : Cycle) :
  items colors = [] -> labels <> [] ->
  Forall (fun r => (3 <= length r)%nat) states ->
  length labels = length states ->
  plot_3d_labeled_clusters states labels t colors = Throw StopIteration.
Proof.
  intros Z0 N F L.
  destruct (@np_unique_nonempty labels N) as (i & us & E & _).
  unfold plot_3d_labeled_clusters. rewrite E. cbn [scatter_clusters].
  rewrite !(mask_column_ok _ i F L) by lia. cbn [obind].
  unfold cycle_next. rewrite Z0.
  destruct (drawn colors mod length (@nil String.string))%nat; reflexivity.
Qed.

Lemma labeled_clusters_empty_cycle_witness :
  plot_3d_labeled_clusters [[1; 2; 3]] [0]%Z Palette.no_title (cycle [])
  = Throw StopIteration.
Proof.
  apply (@labeled_clusters_empty_cycle [[1; 2; 3]] [0]%Z Palette.no_title
           (cycle [])).
  - reflexivity.
  - discriminate.
  - repeat constructor.
  - reflexivity.
Defined.

(** ** [plot_3d_scatter] *)

Lemma slices_app {A : Type} (a : list A) (k : nat) :
  length a = (3 * k)%nat ->
  slice a 0 k ++ slice a k (2 * k) ++ slice a (2 * k) (3 * k) = a.
Proof.
  intros L. unfold slice.
  replace (k - 0)%nat with k by lia.
  replace (2 * k - k)%nat with k by lia.
  replace (3 * k - 2 * k)%nat with k by lia.
  cbn [skipn].
  rewrite (firstn_all2 (n := k) (skipn (2 * k) a))
    by (rewrite length_skipn; lia).
  replace (skipn (2 * k) a) with (skipn k (skipn k a))
    by (rewrite skipn_skipn; f_equal; lia).
  now rewrite !firstn_skipn.
Qed.

Lemma slice_length {A : Type} (a : list A) (lo hi : nat) :
  (hi <= length a)%nat -> length (slice a lo hi) = (hi - lo)%nat.
Proof.
  intros H. unfold slice. rewrite length_firstn, length_skipn. lia.
Qed.

Lemma slice_Forall {A : Type} (P : A -> Prop) (a : list A) (lo hi : nat) :
  Forall P a -> Forall P (slice a lo hi).
Proof.
  intros F. unfold slice.
  rewrite <- (firstn_skipn lo a) in F. apply Forall_app in F as [_ F].
  rewrite <- (firstn_skipn (hi - lo) (skipn lo a)) in F.
  now apply Forall_app in F as [F _].
Qed.

Lemma ravel_length (a : list (list R)) (m : nat) :
  Forall (fun r => length r = m) a -> length (ravel a) = (length a * m)%nat.
Proof.
  unfold ravel. induction 1 as [|r a Hr F IH]; [reflexivity|].
  cbn [concat length]. rewrite length_app, IH, Hr. lia.
Qed.

(** X20.  On an array of n rows of m entries with n a multiple of 3, and
    with a colour that [ax.scatter] accepts, the call returns a figure with
    the given title and a single scatter of the given colour, whose x, y
    and z data have n/3 * m entries each and, put end to end, are the
    row-major flattening of the array: x is the first third of the rows, y
    the second and z the last. *)
Theorem scatter_thirds (is_color : String.string -> bool)
    (states : list (list R)) (t c : String.string) (m : nat) :
  (length states mod 3 = 0)%nat ->
  Forall (fun r => length r = m) states ->
  is_color c = true ->
  exists s,
    plot_3d_scatter is_color states t c
    = Return {| collections := [s]; title := t |} /\
    facecolor s = c /\
    xs3d s ++ ys3d s ++ zs3d s = ravel states /\
    length (xs3d s) = (length states / 3 * m)%nat /\
    length (ys3d s) = (length states / 3 * m)%nat /\
    length (zs3d s) = (length states / 3 * m)%nat.
Proof.
  intros E F C. unfold plot_3d_scatter, np_split3.
  rewrite E. cbn [Nat.eqb obind]. rewrite C.
  eexists. split; [reflexivity|].
  cbn [facecolor xs3d ys3d zs3d].
  set (k := (length states / 3)%nat).
  assert (L : length states = (3 * k)%nat).
  { unfold k. rewrite (Nat.div_mod_eq (length states) 3) at 1. lia. }
  split; [reflexivity|]. split.
  - unfold ravel. rewrite <- !concat_app. f_equal. now apply slices_app.
  - repeat split;
      (rewrite (@ravel_length _ m) by (now apply slice_Forall));
      rewrite slice_length by lia; f_equal; lia.
Qed.

Lemma scatter_thirds_witness :
  exists s,
    plot_3d_scatter palette_color [[1; 2]; [3; 4]; [5; 6]] Palette.no_title
      (nth 0 (concat Palette.csets) Palette.no_title)
    = Return {| collections := [s]; title := Palette.no_title |} /\
    facecolor s = nth 0 (concat Palette.csets) Palette.no_title /\
    xs3d s ++ ys3d s ++ zs3d s = ravel [[1; 2]; [3; 4]; [5; 6]] /\
    length (xs3d s) = (length [[1; 2]; [3; 4]; [5; 6]] / 3 * 2)%nat /\
    length (ys3d s) = (length [[1; 2]; [3; 4]; [5; 6]] / 3 * 2)%nat /\
    length (zs3d s) = (length [[1; 2]; [3; 4]; [5; 6]] / 3 * 2)%nat.
Proof.
  apply (@scatter_thirds palette_color [[1; 2]; [3; 4]; [5; 6]]
           Palette.no_title (nth 0 (concat Palette.csets) Palette.no_title) 2).
  - reflexivity.
  - repeat constructor.
  - reflexivity.
Defined.
